(** * The user-account service of the greetings backend

    A shallow embedding of [Hero-Backend/src/services/userService.js]:
    the user table is a list of rows, a row is a finite map from attribute
    names to values (a JavaScript object), the data-store calls of the
    object-relational mapper are functions on the table, and every service
    method is a computation in a state-and-error monad over the table. *)

From Stdlib Require Import ZArith Ascii String List Sorting.Sorted.
From stdpp Require Import gmap strings list fin_maps sorting pretty.

Set Warnings "-register-all".
Local Open Scope Z_scope.
Local Open Scope string_scope.

(** ** Values and rows *)

(** What a column of the user table or a property of a JavaScript object
    holds: [null], a boolean, an integer, a string, or a [Date] (milliseconds
    since the epoch). *)
Inductive Value : Type :=
  | VNull
  | VBool (b : bool)
  | VInt (n : Z)
  | VStr (s : string)
  | VDate (ms : Z).

Global Instance Value_eq_dec : EqDecision Value.
Proof. solve_decision. Defined.

(** A row of the table, an instance's [dataValues], a [values] object given
    to [update]: a JavaScript object keyed by attribute name. *)
Abbreviation Row := (gmap string Value).
Abbreviation Table := (list (gmap string Value)).

(** Reading an attribute; a column that was never written is [NULL]. *)
Definition attr (r : Row) (a : string) : Value := default VNull (r !! a).

Definition is_null (v : Value) : bool :=
  match v with VNull => true | _ => false end.

(** JavaScript truthiness, as used by [if (search)] and [if (role)]. *)
Definition truthy (v : Value) : bool :=
  match v with
  | VNull => false
  | VBool b => b
  | VInt n => negb (n =? 0)%Z
  | VStr s => negb (String.eqb s "")
  | VDate _ => true
  end.

(** ** Pattern matching of [ILIKE] *)

Definition lower_ascii (c : ascii) : ascii :=
  let n := nat_of_ascii c in
  if ((65 <=? n) && (n <=? 90))%nat then ascii_of_nat (n + 32) else c.

Definition lower (s : list ascii) : list ascii := List.map lower_ascii s.

(** [LIKE]: [%] matches any sequence of characters, [_] any single
    character, a backslash takes the next pattern character literally; a
    pattern that ends in a lone backslash matches nothing. *)
Fixpoint like_match (p s : list ascii) : bool :=
  match p with
  | [] => match s with [] => true | _ => false end
  | c :: p' =>
    if Ascii.eqb c "%" then
      (fix skip (s : list ascii) : bool :=
         like_match p' s || match s with [] => false | _ :: s' => skip s' end) s
    else if Ascii.eqb c "_" then
      match s with [] => false | _ :: s' => like_match p' s' end
    else if Ascii.eqb c "\" then
      match p' with
      | [] => false
      | e :: p'' =>
        match s with
        | [] => false
        | d :: s' => Ascii.eqb e d && like_match p'' s'
        end
      end
    else
      match s with
      | [] => false
      | d :: s' => Ascii.eqb c d && like_match p' s'
      end
  end.

(** [x ILIKE pat]: the match of [LIKE] without regard to the case of the
    letters A to Z; [NULL] and values that are not text match nothing. *)
Definition sql_ilike (x : Value) (pat : string) : bool :=
  match x with
  | VStr s => like_match (lower (list_ascii_of_string pat))
                         (lower (list_ascii_of_string s))
  | _ => false
  end.

(** ** Where clauses *)

(** The conditions the service builds: [{a: v}], [{a: {[Op.gt]: v}}],
    [{a: {[Op.iLike]: pat}}] and [{[Op.or]: [...]}]. *)
Inductive Cond : Type :=
  | CEq (a : string) (v : Value)
  | CGt (a : string) (v : Value)
  | CILike (a : string) (pat : string)
  | COr (cs : list Cond).

(** [a = v]; with [v = null] the mapper writes [a IS NULL]. A [NULL] column
    equals no value, and a column is compared with values of its own type. *)
Definition sql_eq (x v : Value) : bool :=
  match v with
  | VNull => is_null x
  | _ => bool_decide (x = v)
  end.

(** [a > v] on dates and on integers; a comparison with [NULL] is not true. *)
Definition sql_gt (x v : Value) : bool :=
  match x, v with
  | VDate a, VDate b => (b <? a)%Z
  | VInt a, VInt b => (b <? a)%Z
  | _, _ => false
  end.

Fixpoint holds (r : Row) (c : Cond) : bool :=
  match c with
  | CEq a v => sql_eq (attr r a) v
  | CGt a v => sql_gt (attr r a) v
  | CILike a pat => sql_ilike (attr r a) pat
  | COr cs => existsb (holds r) cs
  end.

(** The keys of a where object are joined by AND. *)
Definition matches (w : list Cond) (r : Row) : bool := forallb (holds r) w.


(** ** Computations over the table *)

(** The errors the service can end in: a plain [new Error(msg)] thrown by the
    service itself, the two errors of the data store, and a failure of the
    email dispatcher. *)
Inductive Error : Type :=
  | JsError (msg : string)
  | ValidationError (a : string)
  | UniqueConstraintError (a : string)
  | DatabaseError (msg : string)
  | DispatchError (msg : string).

Inductive Result (A : Type) : Type :=
  | Ok (a : A)
  | Err (e : Error).
Arguments Ok {A} a.
Arguments Err {A} e.

(** An [async] method: it runs against the table, may change it, and either
    returns or throws. What was written before a throw stays written. *)
Definition M (A : Type) : Type := Table -> Result A * Table.

Global Instance M_ret : MRet M := fun A a t => (Ok a, t).
Global Instance M_bind : MBind M := fun A B f m t =>
  match m t with
  | (Ok a, t') => f a t'
  | (Err e, t') => (Err e, t')
  end.

Definition throw {A : Type} (e : Error) : M A := fun t => (Err e, t).
Definition read {A : Type} (f : Table -> A) : M A := fun t => (Ok (f t), t).
Definition lift {A : Type} (r : Result A) : M A := fun t => (r, t).

(** ** The user model *)

(** [ORDER BY a DESC]: larger keys first; PostgreSQL puts [NULL] first on a
    descending order. The order among rows with equal keys is the one the
    merge sort leaves; the data store does not fix it, so a statement that
    compares the rows of different queries asks for pairwise different
    keys. *)
Definition order_key (v : Value) : option Z :=
  match v with
  | VDate ms => Some ms
  | VInt n => Some n
  | _ => None
  end.

Definition desc_leb (x y : Value) : bool :=
  match order_key x, order_key y with
  | None, _ => true
  | Some _, None => false
  | Some a, Some b => (b <=? a)%Z
  end.

Definition before_desc (a : string) : relation Row :=
  fun r1 r2 => desc_leb (attr r1 a) (attr r2 a) = true.

Global Instance before_desc_dec a r1 r2 : Decision (before_desc a r1 r2).
Proof. unfold before_desc. apply _. Defined.

Definition order_desc (a : string) (t : Table) : Table :=
  merge_sort (before_desc a) t.

(** [attributes: { exclude: [...] }]: the listed properties are absent from
    the returned object. *)
Definition omit (exclude : list string) (r : Row) : Row :=
  foldr delete r exclude.

Module UserModel.

(** Modelled from the spec: [models/userModel.js] is not part of the
    sources. The attributes are those of the spec's data model, under the
    names the service uses for them. *)
Definition tableAttributes : list string :=
  [ "id"; "email"; "first_name"; "last_name"; "password"; "google_id";
    "role"; "email_confirmed"; "email_confirmation_otp";
    "email_confirmation_otp_expires"; "refresh_token"; "created_at" ].

Definition is_attribute (a : string) : bool :=
  existsb (String.eqb a) tableAttributes.

(** The mapper writes only the properties of a [values] object that are
    attributes of the model; the others are dropped silently. *)
Definition known (values : Row) : Row :=
  filter (fun kv => is_attribute kv.1 = true) values.

(** Modelled from the spec: column defaults of the missing model. A new
    account is unconfirmed unless the created values say otherwise. *)
Definition defaults : Row := {[ "email_confirmed" := VBool false ]}.

(** Modelled from the spec: the identifier the data store generates, larger
    than every identifier in the table. *)
Definition fresh_id (t : Table) : Z :=
  1 + foldr Z.max 0
        (List.map (fun r => match attr r "id" with VInt n => n | _ => 0 end) t).

Definition email_taken (e : Value) (t : Table) : bool :=
  negb (is_null e) && existsb (fun r => bool_decide (attr r "email" = e)) t.

(** Modelled from the spec: [UserModel.create(values)]. It fails with a
    validation error when a required attribute is missing or null and with
    a uniqueness violation when the email is already in the table;
    otherwise it appends the row, with the generated identifier and the
    creation time, and returns it. [required] stands for the not-null
    attributes of the missing model. *)
Definition create (required : list string) (createdAt : Z) (values : Row)
  : M Row := fun t =>
  match List.find (fun a => is_null (attr values a)) required with
  | Some a => (Err (ValidationError a), t)
  | None =>
    if email_taken (attr values "email") t
    then (Err (UniqueConstraintError "email"), t)
    else
      let row := <[ "id" := VInt (fresh_id t) ]>
                   (<[ "created_at" := VDate createdAt ]>
                      (known values ∪ defaults)) in
      (Ok row, (t ++ [row])%list)
  end.

(** The table as an update writes it: every matching row takes the known
    properties of [values]. *)
Definition written (values : Row) (w : list Cond) (t : Table) : Table :=
  List.map (fun r => if matches w r then known values ∪ r else r) t.

(** Modelled from the spec: the identifier and the email are unique. A write
    breaks the uniqueness of attribute [a] when it gives some row a value for
    [a] that is not null and another row of the table as written has the
    same value. *)
Definition breaks_unique (a : string) (values : Row) (w : list Cond) (t : Table)
  : bool :=
  match known values !! a with
  | Some v =>
    negb (is_null v)
    && (1 <=? length (List.filter (matches w) t))%nat
    && (2 <=? length (List.filter (fun r => bool_decide (attr r a = v))
                        (written values w t)))%nat
  | None => false
  end.

(** [UserModel.update(values, { where })]. With no known property to write
    the mapper returns 0 without a query. A write that breaks the uniqueness
    of the identifier or of the email is refused and nothing is written.
    Otherwise every matching row takes the known properties of [values] and
    the result is the number of rows matched. The validators of the missing
    model are not part of the embedding. *)
Definition update (values : Row) (w : list Cond) : M nat := fun t =>
  if bool_decide (known values = ∅) then (Ok 0%nat, t)
  else if breaks_unique "id" values w t
  then (Err (UniqueConstraintError "id"), t)
  else if breaks_unique "email" values w t
  then (Err (UniqueConstraintError "email"), t)
  else (Ok (length (List.filter (matches w) t)), written values w t).

(** [UserModel.destroy({ where })]: the matching rows are removed; the
    result is their number. *)
Definition destroy (w : list Cond) : M nat := fun t =>
  (Ok (length (List.filter (matches w) t)),
   List.filter (fun r => negb (matches w r)) t).

Definition findOne (w : list Cond) : M (option Row) :=
  read (List.find (matches w)).

Definition findByPk (id : Z) : M (option Row) :=
  findOne [CEq "id" (VInt id)].

Definition count : M nat := read (fun t => length t).

(** [UserModel.findAndCountAll({ where, limit, offset, order, attributes })]:
    [count] is the number of all matching rows, [rows] the page of them.
    PostgreSQL rejects a negative [OFFSET] or [LIMIT]. *)
Definition findAndCountAll (w : list Cond) (limit offset : Z)
    (orderBy : string) (exclude : list string) : M (nat * Table) :=
  if (offset <? 0)%Z then throw (DatabaseError "OFFSET must not be negative")
  else if (limit <? 0)%Z then throw (DatabaseError "LIMIT must not be negative")
  else read (fun t =>
    let sel := List.filter (matches w) t in
    (length sel,
     List.map (omit exclude)
       (take (Z.to_nat limit) (drop (Z.to_nat offset) (order_desc orderBy sel))))).

(** A loaded instance: its values and the assignments not yet saved. *)
Record Instance : Type := { dataValues : Row; pending : Row }.

Definition build (r : Row) : Instance := {| dataValues := r; pending := ∅ |}.

(** [user.a = v] *)
Definition set (a : string) (v : Value) (u : Instance) : Instance :=
  {| dataValues := <[ a := v ]> (dataValues u);
     pending := <[ a := v ]> (pending u) |}.

(** [user.save()]: the changed attributes are written to the row with the
    instance's primary key. *)
Definition save (u : Instance) : M unit :=
  _ ← update (pending u) [CEq "id" (attr (dataValues u) "id")]; mret tt.

End UserModel.

(** ** Numeric request parameters *)

(** [limit] and [offset] as the service receives them: a JavaScript number,
    or the string of decimal digits a query string carries ([Digits 10] is
    the string ["10"]). *)
Inductive Num : Type :=
  | Number (n : Z)
  | Digits (n : N).

Definition parseInt (x : Num) : Z :=
  match x with
  | Number n => n
  | Digits n => Z.of_N n
  end.

(** [x + k] for a number [k]: addition on a number, concatenation with the
    decimal form of [k] on a string. *)
Definition js_add (x : Num) (k : N) : Value :=
  match x with
  | Number n => VInt (n + Z.of_N k)
  | Digits n => VStr (pretty n +:+ pretty k)
  end.

Definition digit_of (c : ascii) : option Z :=
  let n := nat_of_ascii c in
  if ((48 <=? n) && (n <=? 57))%nat then Some (Z.of_nat (n - 48)) else None.

Fixpoint digits_value (acc : Z) (s : string) : option Z :=
  match s with
  | EmptyString => Some acc
  | String c s' =>
    match digit_of c with
    | Some d => digits_value (10 * acc + d) s'
    | None => None
    end
  end.

(** [v < c] for a number [c]: a string operand is first converted to a
    number; what is not a number compares false. *)
Definition js_lt (v : Value) (c : Z) : bool :=
  match v with
  | VInt n => (n <? c)%Z
  | VStr s => match digits_value 0 s with Some n => (n <? c)%Z | None => false end
  | _ => false
  end.

(** ** The service *)

Record ListQuery : Type :=
  { limit : Num; offset : Num; search : string; role : Value }.

(** The defaults of the destructured parameter of [getAllUsers]. *)
Definition default_query : ListQuery :=
  {| limit := Number 10; offset := Number 0; search := ""; role := VNull |}.

Record Listing : Type :=
  { users : Table; totalCount : nat; nextOffset : option Z }.

(** [try { body } catch (error) { handler }] *)
Definition try_catch {A : Type} (body : M A) (handler : Error -> M A) : M A :=
  fun t =>
    match body t with
    | (Ok a, t') => (Ok a, t')
    | (Err e, t') => handler e t'
    end.

(** The methods of [UserService]. Identifiers are integers and one-time
    codes are strings; [now] is the clock reading a method takes
    ([Date.now()], [new Date()]) and [createdAt] the creation time the data
    store stamps on a new row. *)
Section UserService.

(** The email dispatcher: it sends the message and returns the one-time
    code it generated, or fails. *)
Variable sendConfirmationEmail : Value -> Value -> Result string.

(** The not-null attributes of the missing user model. *)
Variable required : list string.

Definition createUser (createdAt now : Z) (userData : Row) : M Row :=
  user ← UserModel.create required createdAt userData;
  otp ← lift (sendConfirmationEmail (attr user "email") (attr user "id"));
  _ ← UserModel.update
        {[ "email_confirmation_otp" := VStr otp;
           "email_confirmation_otp_expires" := VDate (now + 15 * 60 * 1000) ]}
        [CEq "id" (attr user "id")];
  mret user.

Definition getUserById (id : Z) : M (option Row) := UserModel.findByPk id.

Definition updateUserOTP (now : Z) (userId : Z) : M Row :=
  try_catch
    (user ← getUserById userId;
     match user with
     | None => throw (JsError "User not found")
     | Some user =>
       otp ← lift (sendConfirmationEmail (attr user "email") (attr user "id"));
       _ ← UserModel.update
             {[ "email_confirmation_otp" := VStr otp;
                "email_confirmation_otp_expires" := VDate (now + 15 * 60 * 1000) ]}
             [CEq "id" (VInt userId)];
       mret user
     end)
    (fun error => throw error).

Definition createGoogleUser (createdAt : Z) (userData : Row) : M Row :=
  UserModel.create required createdAt (<[ "email_confirmed" := VBool true ]> userData).

Definition getUserCount : M nat := UserModel.count.

Definition getUserByEmail (email : string) : M (option Row) :=
  UserModel.findOne [CEq "email" (VStr email)].

Definition getUserByGoogleId (googleId : string) : M (option Row) :=
  UserModel.findOne [CEq "google_id" (VStr googleId)].

Definition getAllUsers (q : ListQuery) : M Listing :=
  let whereClause :=
    ((if truthy (VStr (search q))
      then [COr [CILike "first_name" ("%" +:+ search q +:+ "%");
                 CILike "last_name" ("%" +:+ search q +:+ "%");
                 CILike "email" ("%" +:+ search q +:+ "%")]]
      else []) ++
     (if truthy (role q) then [CEq "role" (role q)] else []))%list in
  found ← UserModel.findAndCountAll whereClause
            (parseInt (limit q)) (parseInt (offset q)) "created_at"
            ["refresh_token"; "email_confirmation_otp";
             "email_confirmation_otp_expires"];
  let count := found.1 in
  let rows := found.2 in
  let nextOffset :=
    if js_lt (js_add (offset q) (N.of_nat (length rows))) (Z.of_nat count)
    then Some (parseInt (offset q) + parseInt (limit q))
    else None in
  mret {| users := rows; totalCount := count; nextOffset := nextOffset |}.

Definition updateUser (id : Z) (userData : Row) : M (option Row) :=
  _ ← UserModel.update userData [CEq "id" (VInt id)];
  getUserById id.

Definition deleteUser (id : Z) : M nat :=
  UserModel.destroy [CEq "id" (VInt id)].

Definition verifyEmailOTP (now : Z) (userId : Z) (otp : string) : M Row :=
  user ← UserModel.findOne
           [CEq "id" (VInt userId);
            CEq "email_confirmation_otp" (VStr otp);
            CGt "email_confirmation_otp_expires" (VDate now)];
  match user with
  | None => throw (JsError "Invalid or expired OTP")
  | Some r =>
    let user := UserModel.build r in
    let user := UserModel.set "email_confirmed" (VBool true) user in
    let user := UserModel.set "email_confirmation_otp" VNull user in
    let user := UserModel.set "email_confirmation_otp_expires" VNull user in
    _ ← UserModel.save user;
    mret (UserModel.dataValues user)
  end.

Definition findUserForAuth (identifier : string) : M (option Row) :=
  UserModel.findOne
    [COr [CEq "email" (VStr identifier); CEq "google_id" (VStr identifier)]].

Definition revokeRefreshToken (userId : Z) : M nat :=
  UserModel.update {[ "refreshToken" := VNull ]} [CEq "id" (VInt userId)].

End UserService.

(** ** Sample data *)

Definition alice : Row :=
  {[ "id" := VInt 1; "email" := VStr "alice@example.com";
     "first_name" := VStr "Alice"; "last_name" := VStr "Moreau";
     "role" := VStr "user"; "email_confirmed" := VBool false;
     "email_confirmation_otp" := VStr "111111";
     "email_confirmation_otp_expires" := VDate 5000;
     "refresh_token" := VStr "tok"; "created_at" := VDate 10 ]}.

Definition bob : Row :=
  {[ "id" := VInt 2; "email" := VStr "bob@example.com";
     "first_name" := VStr "Bob"; "last_name" := VStr "Stone";
     "role" := VStr "admin"; "email_confirmed" := VBool true;
     "created_at" := VDate 20 ]}.

Definition carol : Row :=
  {[ "id" := VInt 3; "email" := VStr "carol@example.com";
     "first_name" := VStr "Carol"; "last_name" := VStr "Diaz";
     "role" := VStr "user"; "email_confirmed" := VBool true;
     "created_at" := VDate 30 ]}.

Definition sample_table : Table := [alice; bob; carol].

(** A dispatcher that always delivers the same code. *)
Definition send_fixed (otp : string) : Value -> Value -> Result string :=
  fun _ _ => Ok otp.

(** A dispatcher that cannot deliver. *)
Definition send_failing : Value -> Value -> Result string :=
  fun _ _ => Err (DispatchError "mail server unreachable").

(** The data of a registration. *)
Definition dave_data : Row :=
  {[ "email" := VStr "dave@example.com"; "first_name" := VStr "Dave" ]}.

(** ** What the operations are specified against *)

(** A row on which [verifyEmailOTP now userId otp] can succeed: the id and
    the stored code match and the stored expiry is later than [now]. *)
Definition otp_valid (now userId : Z) (otp : string) (r : Row) : Prop :=
  attr r "id" = VInt userId /\
  attr r "email_confirmation_otp" = VStr otp /\
  exists e, attr r "email_confirmation_otp_expires" = VDate e /\ (now < e)%Z.

(** The confirmed form of a row: the flag set, both code fields null. *)
Definition confirm (r : Row) : Row :=
  <[ "email_confirmation_otp_expires" := VNull ]>
    (<[ "email_confirmation_otp" := VNull ]>
       (<[ "email_confirmed" := VBool true ]> r)).

Definition invalid_or_expired : Error := JsError "Invalid or expired OTP".

(** The where clause [getAllUsers] builds for a query. *)
Definition where_of (q : ListQuery) : list Cond :=
  ((if truthy (VStr (search q))
    then [COr [CILike "first_name" ("%" +:+ search q +:+ "%");
               CILike "last_name" ("%" +:+ search q +:+ "%");
               CILike "email" ("%" +:+ search q +:+ "%")]]
    else []) ++
   (if truthy (role q) then [CEq "role" (role q)] else []))%list.

Definition sensitive : list string :=
  ["refresh_token"; "email_confirmation_otp"; "email_confirmation_otp_expires"].

(** The rows a query selects, newest first, before paging. *)
Definition selected (q : ListQuery) (t : Table) : Table :=
  order_desc "created_at" (List.filter (matches (where_of q)) t).

(** The page of a listing: [limit] rows after the first [offset] ones, each
    without the sensitive attributes. *)
Definition page (q : ListQuery) (t : Table) : Table :=
  List.map (omit sensitive)
    (take (Z.to_nat (parseInt (limit q)))
       (drop (Z.to_nat (parseInt (offset q))) (selected q t))).

(** The row [UserModel.create] builds from [userData] against table [t]. *)
Definition created_row (createdAt : Z) (userData : Row) (t : Table) : Row :=
  <[ "id" := VInt (UserModel.fresh_id t) ]>
    (<[ "created_at" := VDate createdAt ]>
       (UserModel.known userData ∪ UserModel.defaults)).

(** A registration the data store accepts: every required attribute has a
    value and the email is not in the table yet. *)
Definition accepted (required : list string) (userData : Row) (t : Table) : Prop :=
  (forall a, In a required -> attr userData a <> VNull) /\
  UserModel.email_taken (attr userData "email") t = false.

(** A row after a code was issued on it at time [now]: the code, and the
    expiry 900 seconds later. *)
Definition issue (otp : string) (now : Z) (r : Row) : Row :=
  <[ "email_confirmation_otp" := VStr otp ]>
    (<[ "email_confirmation_otp_expires" := VDate (now + 900 * 1000) ]> r).

(** The invariant of the data model: the code and its expiry are both null
    or both set, and a confirmed account holds neither. *)
Definition otp_paired (r : Row) : Prop :=
  attr r "email_confirmation_otp" = VNull <->
  attr r "email_confirmation_otp_expires" = VNull.

Definition confirmed_clear (r : Row) : Prop :=
  attr r "email_confirmed" = VBool true ->
  attr r "email_confirmation_otp" = VNull /\
  attr r "email_confirmation_otp_expires" = VNull.

Definition user_invariant (r : Row) : Prop := otp_paired r /\ confirmed_clear r.

Definition store_invariant (t : Table) : Prop := Forall user_invariant t.

Global Instance user_invariant_dec r : Decision (user_invariant r).
Proof. unfold user_invariant, otp_paired, confirmed_clear. apply _. Defined.

Global Instance store_invariant_dec t : Decision (store_invariant t).
Proof. unfold store_invariant. apply _. Defined.

(** [userData] says nothing about the attributes in [l]. *)
Definition untouched (userData : Row) (l : list string) : Prop :=
  Forall (fun a => userData !! a = None) l.

Global Instance untouched_dec userData l : Decision (untouched userData l).
Proof. unfold untouched. apply _. Defined.

Definition confirmation_attributes : list string :=
  ["email_confirmed"; "email_confirmation_otp"; "email_confirmation_otp_expires"].

(** The listing of a query whose offset and limit the data store accepts. *)
Definition listing (q : ListQuery) (t : Table) : Listing :=
  let total := length (List.filter (matches (where_of q)) t) in
  {| users := page q t;
     totalCount := total;
     nextOffset :=
       if js_lt (js_add (offset q) (N.of_nat (length (page q t)))) (Z.of_nat total)
       then Some (parseInt (offset q) + parseInt (limit q))%Z
       else None |}.

(** Substrings, for what a search term without wildcards selects. *)
Fixpoint prefixb (p s : list ascii) : bool :=
  match p with
  | [] => true
  | c :: p' =>
    match s with
    | [] => false
    | d :: s' => Ascii.eqb c d && prefixb p' s'
    end
  end.

Fixpoint infixb (p s : list ascii) : bool :=
  prefixb p s || match s with [] => false | _ :: s' => infixb p s' end.

Definition wildcard (c : ascii) : bool :=
  Ascii.eqb c "%" || Ascii.eqb c "_" || Ascii.eqb c "\".

(** A search term in which no character has a meaning to [LIKE]. *)
Definition plain_term (term : string) : Prop :=
  forallb (fun c => negb (wildcard c)) (list_ascii_of_string term) = true.

(** [term] occurs in [field], letter case apart. *)
Definition contains_ci (term field : string) : Prop :=
  infixb (lower (list_ascii_of_string term)) (lower (list_ascii_of_string field)) = true.

Definition field_contains (term : string) (v : Value) : Prop :=
  exists s, v = VStr s /\ contains_ci term s.

(** The pattern [getAllUsers] searches with. *)
Definition pattern_of (term : string) : string := "%" +:+ term +:+ "%".

(** No two rows of the table share an identifier. *)
Definition unique_ids (t : Table) : Prop :=
  NoDup (List.map (fun r => attr r "id") t).

(** * The greetings form

    The file handling of [Hero-Frontend/components/GreetingsForm.tsx]: the
    detection of a dropped file's kind, and the handlers [onDrop] and
    [removeFile] as transitions of the component's state. Strings are ASCII
    text; [toLowerCase] lowers the letters A to Z. *)
Module GreetingsForm.

Inductive FileType : Type := image | video | audio.

Global Instance FileType_eq_dec : EqDecision FileType.
Proof. solve_decision. Defined.

Definition MAX_FILE_SIZE : Z := 100 * 1024 * 1024.

(** A browser [File]: its name, its MIME type, its size in bytes, and the
    [path] the drop zone may add. *)
Module File.
Record t : Type := { name : string; type : string; size : Z; path : option string }.
End File.

Inductive UploadStatus : Type := pending | uploading | completed | error.

(** [fileType] holds what [detectFileType] returned ([detectedType!]). *)
Record FileInfo : Type :=
  { file : File.t;
    name : string;
    path : string;
    fileType : option FileType;
    uploadProgress : Z;
    uploadStatus : UploadStatus;
    uploadedUrl : option string;
    previewUrl : string }.

(** The state of the component. *)
Record State : Type :=
  { greetings : string;
    files : list FileInfo;
    fileError : string;
    isUploading : bool;
    previewUrls : gmap string string }.

Definition allowedTypes : list (FileType * list string) :=
  [ (image, ["image/jpeg"; "image/png"; "image/gif"; "image/webp";
             "image/tiff"; "image/bmp"]);
    (video, ["video/mp4"; "video/quicktime"; "video/x-msvideo";
             "video/x-ms-wmv"; "video/webm"; "video/3gpp"]);
    (audio, ["audio/mpeg"; "audio/wav"; "audio/aac"; "audio/ogg";
             "audio/webm"; "audio/flac"]) ].

(** [s.split(sep)]: the pieces of [s] between the separators; never empty. *)
Fixpoint split_on (sep : ascii) (s : list ascii) : list (list ascii) :=
  match s with
  | [] => [[]]
  | c :: s' =>
    if Ascii.eqb c sep then [] :: split_on sep s'
    else match split_on sep s' with
         | seg :: segs => (c :: seg) :: segs
         | [] => [[c]]
         end
  end.

(** [s.startsWith(p)] and [s.endsWith(p)]. *)
Definition startsWith (s p : list ascii) : bool := prefixb p s.
Definition endsWith (s p : list ascii) : bool := prefixb (rev p) (rev s).

(** [file.name.split(".").pop()?.toLowerCase()]: the text after the last
    dot, the whole name when it has none. *)
Definition fileExtension (f : File.t) : list ascii :=
  lower (List.last (split_on "." (list_ascii_of_string (File.name f))) []).

Definition nonempty (s : list ascii) : bool :=
  match s with [] => false | _ => true end.

(** The test of [mimeTypes.some(...)] for one MIME type. *)
Definition mime_matches (f : File.t) (ext : list ascii) (mime : string) : bool :=
  startsWith (list_ascii_of_string (File.type f)) (list_ascii_of_string mime)
  || (nonempty ext && endsWith (list_ascii_of_string mime) ext).

Definition detectFileType (f : File.t) : option FileType :=
  let fileExtension := fileExtension f in
  option_map fst
    (List.find (fun entry => existsb (mime_matches f fileExtension) entry.2)
       allowedTypes).

(** The callback of [acceptedFiles.filter]: the error it sets for a file it
    rejects, nothing for a file it keeps. *)
Definition rejection (f : File.t) : option string :=
  if (MAX_FILE_SIZE <? File.size f)%Z
  then Some ("File " +:+ File.name f +:+ " is too large. Maximum size is 100MB.")
  else match detectFileType f with
       | None => Some ("File " +:+ File.name f +:+ " is not a supported format.")
       | Some _ => None
       end.

Definition keeps (f : File.t) : bool :=
  match rejection f with None => true | Some _ => false end.

(** [file.path || file.name] *)
Definition path_or_name (f : File.t) : string :=
  match File.path f with
  | Some p => if String.eqb p "" then File.name f else p
  | None => File.name f
  end.

Definition newFile (createObjectURL : File.t -> string) (f : File.t) : FileInfo :=
  {| file := f;
     name := File.name f;
     path := path_or_name f;
     fileType := detectFileType f;
     uploadProgress := 0;
     uploadStatus := pending;
     uploadedUrl := None;
     previewUrl := createObjectURL f |}.

(** [onDrop(acceptedFiles)]. The filter sets the error of every file it
    rejects, so the last one stays; each kept file gets a preview URL from
    [createObjectURL], recorded under its name; when a file was kept the new
    entries are appended and the error is cleared. *)
Definition onDrop (createObjectURL : File.t -> string)
    (acceptedFiles : list File.t) (st : State) : State :=
  let validFiles := List.filter keeps acceptedFiles in
  let filterError :=
    fold_left (fun e f => match rejection f with Some m => m | None => e end)
      acceptedFiles (fileError st) in
  let newFiles := List.map (newFile createObjectURL) validFiles in
  let urls :=
    fold_left (fun prev f => <[ File.name f := createObjectURL f ]> prev)
      validFiles (previewUrls st) in
  if (0 <? Z.of_nat (length newFiles))%Z
  then {| greetings := greetings st;
          files := (files st ++ newFiles)%list;
          fileError := "";
          isUploading := isUploading st;
          previewUrls := urls |}
  else {| greetings := greetings st;
          files := files st;
          fileError := filterError;
          isUploading := isUploading st;
          previewUrls := urls |}.

(** [l.filter((_, i) => p(i))], with [i] counted from [start]. *)
Fixpoint filter_index {A : Type} (p : nat -> bool) (start : nat) (l : list A)
  : list A :=
  match l with
  | [] => []
  | x :: l' =>
    if p start then x :: filter_index p (S start) l'
    else filter_index p (S start) l'
  end.

(** [removeFile(index)]: the entry at [index] goes, and with it the preview
    URL recorded under its name. With no entry at [index] the handler throws
    a [TypeError]: no result. *)
Definition removeFile (index : nat) (st : State) : option State :=
  match files st !! index with
  | None => None
  | Some fileToRemove =>
    Some {| greetings := greetings st;
            files := filter_index (fun i => negb (Nat.eqb i index)) 0 (files st);
            fileError := fileError st;
            isUploading := isUploading st;
            previewUrls := delete (name fileToRemove) (previewUrls st) |}
  end.

(** What [onDrop] and [removeFile] keep true of every entry: the file is
    within the size limit, its kind was detected, and the entry carries the
    file's name. *)
Definition entry_ok (fi : FileInfo) : Prop :=
  (File.size (file fi) <= MAX_FILE_SIZE)%Z /\
  fileType fi = detectFileType (file fi) /\
  is_Some (fileType fi) /\
  name fi = File.name (file fi).

(** The [accept] option given to the drop zone: the extensions it lets
    through, by MIME pattern. *)
Definition accept : list (string * list string) :=
  [ ("image/*", [".jpg"; ".jpeg"; ".png"; ".gif"; ".webp"; ".tiff"; ".bmp"]);
    ("video/*", [".mp4"; ".mov"; ".avi"; ".wmv"; ".webm"; ".3gp"; ".mkv"]);
    ("audio/*", [".mp3"; ".wav"; ".aac"; ".ogg"; ".flac"]) ].

(** Extensions that are the ending of no listed MIME type. *)
Definition unnamed_extensions : list string :=
  ["jpg"; "mov"; "avi"; "3gp"; "mkv"; "mp3"].

(** Sample files and a sample state. *)
Definition photo : File.t :=
  {| File.name := "Party.PNG"; File.type := "image/png"; File.size := 2048;
     File.path := None |}.

Definition clip : File.t :=
  {| File.name := "clip.mkv"; File.type := "video/x-matroska"; File.size := 4096;
     File.path := Some "videos/clip.mkv" |}.

Definition huge : File.t :=
  {| File.name := "long.mp4"; File.type := "video/mp4";
     File.size := 200 * 1024 * 1024; File.path := None |}.

Definition voice : File.t :=
  {| File.name := "voice.webm"; File.type := "audio/webm"; File.size := 1024;
     File.path := None |}.

Definition blob_url (f : File.t) : string := "blob:" +:+ File.name f.

Definition empty_form : State :=
  {| greetings := ""; files := []; fileError := ""; isUploading := false;
     previewUrls := ∅ |}.

End GreetingsForm.

(** ** Lemmas on rows and where clauses *)

Lemma attr_insert (r : Row) a b v :
  attr (<[ a := v ]> r) b = if decide (a = b) then v else attr r b.
Proof. unfold attr. rewrite lookup_insert. by case_decide. Qed.

Lemma attr_union (m r : Row) a :
  attr (m ∪ r) a = match m !! a with Some v => v | None => attr r a end.
Proof. unfold attr. rewrite lookup_union. by destruct (m !! a), (r !! a). Qed.

Lemma known_lookup (values : Row) a :
  UserModel.known values !! a =
  if UserModel.is_attribute a then values !! a else None.
Proof.
  unfold UserModel.known. rewrite map_lookup_filter.
  destruct (values !! a) as [v|] eqn:E; simpl.
  - destruct (UserModel.is_attribute a) eqn:Ha.
    + by rewrite option_guard_True.
    + rewrite option_guard_False; [done|]. simpl. congruence.
  - by destruct (UserModel.is_attribute a).
Qed.

Lemma known_nonempty (values : Row) a v :
  UserModel.is_attribute a = true -> values !! a = Some v ->
  UserModel.known values <> ∅.
Proof.
  intros Ha Hv Hempty. apply (f_equal (lookup a)) in Hempty.
  rewrite known_lookup, Ha, Hv, lookup_empty in Hempty. discriminate.
Qed.

Lemma written_nothing (values : Row) (w : list Cond) (t : Table) :
  UserModel.known values = ∅ -> UserModel.written values w t = t.
Proof.
  intros Hempty. unfold UserModel.written. rewrite Hempty.
  rewrite <- (map_id t) at 2. apply map_ext. intros r.
  destruct (matches w r); [|done]. by rewrite (left_id_L ∅ (∪)).
Qed.

(** A write that names neither the identifier nor the email is never
    refused. *)
Lemma update_plain (values : Row) (w : list Cond) (t : Table) :
  UserModel.known values <> ∅ ->
  UserModel.known values !! "id" = None ->
  UserModel.known values !! "email" = None ->
  UserModel.update values w t
  = (Ok (length (List.filter (matches w) t)),
     List.map (fun r => if matches w r then UserModel.known values ∪ r else r) t).
Proof.
  intros Hne Hid Hmail. unfold UserModel.update, UserModel.breaks_unique.
  rewrite bool_decide_eq_false_2 by done. by rewrite Hid, Hmail.
Qed.

(** An update that returns has written; one that throws has not. *)
Lemma update_Ok (values : Row) (w : list Cond) (t : Table) n t' :
  UserModel.update values w t = (Ok n, t') -> t' = UserModel.written values w t.
Proof.
  unfold UserModel.update. case_bool_decide as Hempty.
  - intros [= _ <-]. by rewrite written_nothing.
  - destruct (UserModel.breaks_unique "id" values w t); [discriminate|].
    destruct (UserModel.breaks_unique "email" values w t); [discriminate|].
    by intros [= _ <-].
Qed.

Lemma update_Err (values : Row) (w : list Cond) (t : Table) e t' :
  UserModel.update values w t = (Err e, t') -> t' = t.
Proof.
  unfold UserModel.update. case_bool_decide; [discriminate|].
  destruct (UserModel.breaks_unique "id" values w t); [by intros [= _ <-]|].
  destruct (UserModel.breaks_unique "email" values w t); [by intros [= _ <-]|].
  discriminate.
Qed.

Lemma update_table_cases (values : Row) (w : list Cond) (t : Table) :
  (UserModel.update values w t).2 = t \/
  (UserModel.update values w t).2
  = List.map (fun r => if matches w r then UserModel.known values ∪ r else r) t.
Proof.
  destruct (UserModel.update values w t) as [[n|e] t'] eqn:Hrun; cbn [snd].
  - right. by apply update_Ok in Hrun.
  - left. by apply update_Err in Hrun.
Qed.

Lemma updateUser_table (id : Z) (userData : Row) (t : Table) :
  (updateUser id userData t).2
  = (UserModel.update userData [CEq "id" (VInt id)] t).2.
Proof.
  unfold updateUser, mbind, M_bind.
  by destruct (UserModel.update userData _ t) as [[n|e] t'].
Qed.

Lemma sql_eq_VInt x n : sql_eq x (VInt n) = true <-> x = VInt n.
Proof. simpl. by rewrite bool_decide_eq_true. Qed.

Lemma sql_eq_VStr x s : sql_eq x (VStr s) = true <-> x = VStr s.
Proof. simpl. by rewrite bool_decide_eq_true. Qed.

Lemma sql_gt_VDate x now :
  sql_gt x (VDate now) = true <-> exists e, x = VDate e /\ (now < e)%Z.
Proof.
  destruct x; simpl; split; try discriminate; try (intros (e & ? & _); discriminate).
  - intros H. exists ms. split; [done|]. by apply Z.ltb_lt.
  - intros (e & [= ->] & H). by apply Z.ltb_lt.
Qed.

Lemma matches_id (userId : Z) (r : Row) :
  matches [CEq "id" (VInt userId)] r = true <-> attr r "id" = VInt userId.
Proof.
  unfold matches. simpl. rewrite andb_true_r. by rewrite bool_decide_eq_true.
Qed.

Lemma matches_otp now userId otp (r : Row) :
  matches [CEq "id" (VInt userId);
           CEq "email_confirmation_otp" (VStr otp);
           CGt "email_confirmation_otp_expires" (VDate now)] r = true
  <-> otp_valid now userId otp r.
Proof.
  unfold matches, otp_valid. cbn [forallb holds].
  rewrite !andb_true_iff, sql_eq_VInt, sql_eq_VStr, sql_gt_VDate. tauto.
Qed.

Lemma known_confirm_union (r : Row) :
  UserModel.known
    (<[ "email_confirmation_otp_expires" := VNull ]>
       (<[ "email_confirmation_otp" := VNull ]>
          (<[ "email_confirmed" := VBool true ]> ∅))) ∪ r = confirm r.
Proof.
  apply map_eq. intros a. unfold confirm.
  rewrite lookup_union, known_lookup, !lookup_insert.
  repeat case_decide; subst; rewrite ?lookup_empty.
  1-3: change (UserModel.is_attribute _) with true; cbv iota;
       by destruct (r !! _).
  by destruct (UserModel.is_attribute a), (r !! a).
Qed.

Lemma attr_confirm_id (r : Row) : attr (confirm r) "id" = attr r "id".
Proof. unfold confirm. by rewrite !attr_insert. Qed.

(** [verifyEmailOTP] without the monad: the first row that passes the three
    conditions is confirmed, and with it every row of the same key. *)
Lemma verifyEmailOTP_unfold now userId otp (t : Table) :
  verifyEmailOTP now userId otp t =
  match List.find (matches [CEq "id" (VInt userId);
                            CEq "email_confirmation_otp" (VStr otp);
                            CGt "email_confirmation_otp_expires" (VDate now)]) t with
  | None => (Err invalid_or_expired, t)
  | Some r =>
    (Ok (confirm r),
     List.map (fun r' => if bool_decide (attr r' "id" = VInt userId)
                         then confirm r' else r') t)
  end.
Proof.
  unfold verifyEmailOTP, UserModel.findOne, read, mbind, M_bind.
  destruct (List.find _ t) as [r|] eqn:Hfind; [|reflexivity].
  apply find_some in Hfind as [_ Hr]. apply matches_otp in Hr as (Hid & _).
  unfold UserModel.save, mbind, M_bind, mret, M_ret.
  cbn [UserModel.set UserModel.build UserModel.dataValues UserModel.pending].
  rewrite update_plain.
  2: { eapply (known_nonempty _ "email_confirmed"); [reflexivity|by vm_compute]. }
  2, 3: rewrite known_lookup; by vm_compute.
  fold (confirm r). rewrite attr_confirm_id, Hid. f_equal.
  apply map_ext. intros r'. rewrite known_confirm_union.
  destruct (matches _ r') eqn:Hm.
  - apply matches_id in Hm. by rewrite bool_decide_eq_true_2.
  - rewrite bool_decide_eq_false_2; [done|]. intros H. apply matches_id in H. congruence.
Qed.

Lemma find_all_false {A : Type} (f : A -> bool) (l : list A) :
  (forall x, In x l -> f x = false) -> List.find f l = None.
Proof.
  induction l as [|x l IH]; intros H; [reflexivity|]. simpl.
  rewrite (H x (or_introl eq_refl)). apply IH. intros y Hy. apply H. by right.
Qed.

Lemma filter_none {A : Type} (f : A -> bool) (l : list A) :
  (forall x, In x l -> f x = false) -> List.filter f l = [].
Proof.
  induction l as [|x l IH]; intros H; [reflexivity|]. simpl.
  rewrite (H x (or_introl eq_refl)). apply IH. intros y Hy. apply H. by right.
Qed.

Lemma filter_all {A : Type} (f : A -> bool) (l : list A) :
  (forall x, In x l -> f x = true) -> List.filter f l = l.
Proof.
  induction l as [|x l IH]; intros H; [reflexivity|]. simpl.
  rewrite (H x (or_introl eq_refl)). f_equal. apply IH. intros y Hy. apply H. by right.
Qed.

Lemma find_is_Some {A : Type} (f : A -> bool) (l : list A) (x : A) :
  In x l -> f x = true -> exists y, List.find f l = Some y.
Proof.
  intros Hin Hf. destruct (List.find f l) as [y|] eqn:E; [by exists y|].
  rewrite (find_none _ _ E x Hin) in Hf. discriminate.
Qed.

Lemma confirm_not_valid now userId otp (r : Row) :
  ~ otp_valid now userId otp (confirm r).
Proof.
  intros (_ & H & _). unfold confirm in H. rewrite !attr_insert in H.
  repeat case_decide; congruence.
Qed.

(** ** verifyEmailOTP *)

(** C1: [verifyEmailOTP] succeeds exactly when a row with the id holds the
    given code and an expiry later than the current time; on success the
    returned user is the confirmed form of that row (flag set, both code
    fields null) and it is the row now stored; every failure is the one
    invalid-or-expired error; a second call with the same code fails. *)
Theorem verifyEmailOTP_spec now userId otp (t : Table) :
  ((exists u t', verifyEmailOTP now userId otp t = (Ok u, t')) <->
   (exists r, In r t /\ otp_valid now userId otp r)) /\
  (forall u t', verifyEmailOTP now userId otp t = (Ok u, t') ->
     (exists r, In r t /\ otp_valid now userId otp r /\ u = confirm r) /\
     attr u "email_confirmed" = VBool true /\
     attr u "email_confirmation_otp" = VNull /\
     attr u "email_confirmation_otp_expires" = VNull /\
     In u t' /\
     t' = List.map (fun r => if bool_decide (attr r "id" = VInt userId)
                             then confirm r else r) t /\
     forall now', verifyEmailOTP now' userId otp t' = (Err invalid_or_expired, t')) /\
  (forall e t', verifyEmailOTP now userId otp t = (Err e, t') ->
     e = invalid_or_expired).
Proof.
  rewrite verifyEmailOTP_unfold.
  destruct (List.find _ t) as [r|] eqn:Hfind.
  - pose proof (find_some _ _ Hfind) as [Hin Hr]. apply matches_otp in Hr.
    split; [|split].
    + split; [intros _; by exists r | intros _; eauto].
    + intros u t' [= <- <-]. split; [by exists r|].
      unfold confirm at 1 2 3. rewrite !attr_insert. simpl.
      repeat split.
      * apply in_map_iff. exists r. split; [|done].
        destruct Hr as (Hid & _). by rewrite bool_decide_eq_true_2.
      * intros now'. rewrite verifyEmailOTP_unfold.
        rewrite find_all_false; [done|].
        intros x (y & <- & _)%in_map_iff.
        apply not_true_is_false. intros Hx%matches_otp.
        case_bool_decide as Hy.
        -- by apply confirm_not_valid in Hx.
        -- by destruct Hx as (? & _).
    + intros e t' [=].
  - split; [|split].
    + split; [intros (u & t' & [=])|].
      intros (r & Hin & Hr%matches_otp).
      by rewrite (find_none _ _ Hfind r Hin) in Hr.
    + intros u t' [=].
    + by intros e t' [= <- _].
Qed.

(** C2: a failing [verifyEmailOTP] leaves the whole table as it was. *)
Theorem verifyEmailOTP_failure_no_write now userId otp (t : Table) e t' :
  verifyEmailOTP now userId otp t = (Err e, t') -> t' = t.
Proof.
  rewrite verifyEmailOTP_unfold. destruct (List.find _ t); [discriminate|].
  by intros [= _ <-].
Qed.

(** ** updateUserOTP *)

Lemma known_issue_union otp now (r : Row) :
  UserModel.known
    {[ "email_confirmation_otp" := VStr otp;
       "email_confirmation_otp_expires" := VDate (now + 15 * 60 * 1000) ]} ∪ r
  = issue otp now r.
Proof.
  apply map_eq. intros a. unfold issue.
  rewrite lookup_union, known_lookup, !lookup_insert, lookup_singleton.
  repeat case_decide; subst; try congruence.
  1-2: change (UserModel.is_attribute _) with true; cbv iota;
       by destruct (r !! _).
  by destruct (UserModel.is_attribute a), (r !! a).
Qed.

Lemma update_issue otp now (userId : Z) (t : Table) :
  UserModel.update
    {[ "email_confirmation_otp" := VStr otp;
       "email_confirmation_otp_expires" := VDate (now + 15 * 60 * 1000) ]}
    [CEq "id" (VInt userId)] t
  = (Ok (length (List.filter (matches [CEq "id" (VInt userId)]) t)),
     List.map (fun r => if bool_decide (attr r "id" = VInt userId)
                        then issue otp now r else r) t).
Proof.
  rewrite update_plain.
  2: { eapply (known_nonempty _ "email_confirmation_otp"); [reflexivity|].
       apply lookup_insert_eq. }
  2, 3: rewrite known_lookup; by vm_compute.
  f_equal. apply map_ext. intros r.
  rewrite known_issue_union. destruct (matches _ r) eqn:Hm.
  - apply matches_id in Hm. by rewrite bool_decide_eq_true_2.
  - rewrite bool_decide_eq_false_2; [done|]. intros H%matches_id. congruence.
Qed.

(** C5: without a user of that id [updateUserOTP] throws "User not found" and
    writes nothing; with one, and a code from the dispatcher, every row of
    that id gets the new code and the expiry [now + 900 s], whatever it held
    before, the other rows stay, and the user as read is returned. *)
Theorem updateUserOTP_spec send now userId (t : Table) :
  ((forall r, In r t -> attr r "id" <> VInt userId) ->
   updateUserOTP send now userId t = (Err (JsError "User not found"), t)) /\
  (forall r, In r t -> attr r "id" = VInt userId ->
   exists user, In user t /\ attr user "id" = VInt userId /\
     forall otp, send (attr user "email") (attr user "id") = Ok otp ->
       exists t',
         updateUserOTP send now userId t = (Ok user, t') /\
         t' = List.map (fun r' => if bool_decide (attr r' "id" = VInt userId)
                                  then issue otp now r' else r') t /\
         (forall r', In r' t' -> attr r' "id" = VInt userId ->
            attr r' "email_confirmation_otp" = VStr otp /\
            attr r' "email_confirmation_otp_expires" = VDate (now + 900 * 1000)) /\
         (forall r', In r' t -> attr r' "id" <> VInt userId -> In r' t')).
Proof.
  unfold updateUserOTP, try_catch, getUserById, UserModel.findByPk,
    UserModel.findOne, read, mbind, M_bind.
  split.
  - intros Hnone. rewrite find_all_false; [done|].
    intros r Hr. apply not_true_is_false. intros H%matches_id. by apply (Hnone r).
  - intros r Hin Hid.
    destruct (find_is_Some (matches [CEq "id" (VInt userId)]) t r Hin) as [user Hu].
    { by apply matches_id. }
    rewrite Hu. apply find_some in Hu as [Huin Huid%matches_id].
    exists user. split; [done|]. split; [done|].
    intros otp Hsend. unfold lift. rewrite Hsend, update_issue.
    eexists. split; [reflexivity|]. split; [reflexivity|]. split.
    + intros r' (x & <- & Hx)%in_map_iff Hr'.
      case_bool_decide as Hxid; [|done].
      unfold issue. by rewrite !attr_insert.
    + intros r' Hr' Hne. apply in_map_iff. exists r'.
      by rewrite bool_decide_eq_false_2.
Qed.

(** ** deleteUser *)

(** C10: deleting an id that no row has returns normally with zero deleted
    rows and the table as it was. *)
Theorem deleteUser_missing (id : Z) (t : Table) :
  (forall r, In r t -> attr r "id" <> VInt id) ->
  deleteUser id t = (Ok 0%nat, t).
Proof.
  intros Hnone. unfold deleteUser, UserModel.destroy.
  assert (Hall : forall r, In r t -> matches [CEq "id" (VInt id)] r = false).
  { intros r Hr. apply not_true_is_false. intros H%matches_id. by apply (Hnone r). }
  rewrite filter_none by done. rewrite filter_all; [done|].
  intros r Hr. by rewrite Hall.
Qed.

(** ** revokeRefreshToken *)

Lemma known_refreshToken : UserModel.known {[ "refreshToken" := VNull ]} = ∅.
Proof.
  apply map_eq. intros a. rewrite known_lookup, lookup_singleton, lookup_empty.
  case_decide; subst; [reflexivity|]. by destruct (UserModel.is_attribute a).
Qed.

(** The [values] object names no attribute of the model, so there is
    nothing to write: the call returns 0 and no row changes. *)
Lemma revokeRefreshToken_run (userId : Z) (t : Table) :
  revokeRefreshToken userId t = (Ok 0%nat, t).
Proof.
  unfold revokeRefreshToken, UserModel.update.
  by rewrite bool_decide_eq_true_2 by apply known_refreshToken.
Qed.

Lemma revokeRefreshToken_writes_nothing (userId : Z) (t : Table) :
  (revokeRefreshToken userId t).2 = t.
Proof. by rewrite revokeRefreshToken_run. Qed.

Lemma revokeRefreshToken_idempotent (userId : Z) (t : Table) :
  (revokeRefreshToken userId (revokeRefreshToken userId t).2).2
  = (revokeRefreshToken userId t).2.
Proof. by rewrite !revokeRefreshToken_writes_nothing. Qed.

(** C9: on a stored user with a refresh token, [revokeRefreshToken] returns
    normally, reports no affected row and leaves the table as it was: the
    user is still stored with the token. *)
Theorem revokeRefreshToken_keeps_token :
  revokeRefreshToken 1 sample_table = (Ok 0%nat, sample_table) /\
  alice ∈ sample_table /\
  attr alice "id" = VInt 1 /\
  attr alice "refresh_token" = VStr "tok".
Proof.
  split; [apply revokeRefreshToken_run|].
  split; [apply list_elem_of_here|by vm_compute].
Qed.

(** ** getAllUsers *)

Lemma getAllUsers_unfold (q : ListQuery) (t : Table) :
  getAllUsers q t =
  if (parseInt (offset q) <? 0)%Z
  then (Err (DatabaseError "OFFSET must not be negative"), t)
  else if (parseInt (limit q) <? 0)%Z
  then (Err (DatabaseError "LIMIT must not be negative"), t)
  else
    (Ok {| users := page q t;
           totalCount := length (List.filter (matches (where_of q)) t);
           nextOffset :=
             if js_lt (js_add (offset q) (N.of_nat (length (page q t))))
                      (Z.of_nat (length (List.filter (matches (where_of q)) t)))
             then Some (parseInt (offset q) + parseInt (limit q))%Z
             else None |}, t).
Proof.
  unfold getAllUsers, UserModel.findAndCountAll, mbind, M_bind.
  fold (where_of q).
  destruct (parseInt (offset q) <? 0)%Z; [reflexivity|].
  destruct (parseInt (limit q) <? 0)%Z; reflexivity.
Qed.

Lemma getAllUsers_run (q : ListQuery) (t : Table) :
  (0 <=? parseInt (offset q))%Z && (0 <=? parseInt (limit q))%Z = true ->
  getAllUsers q t = (Ok (listing q t), t).
Proof.
  rewrite andb_true_iff, !Z.leb_le. intros [Ho Hl]. rewrite getAllUsers_unfold.
  destruct (Z.ltb_spec (parseInt (offset q)) 0); [lia|].
  by destruct (Z.ltb_spec (parseInt (limit q)) 0); [lia|].
Qed.

Lemma getAllUsers_Ok (q : ListQuery) (t : Table) l t' :
  getAllUsers q t = (Ok l, t') ->
  t' = t /\ (0 <= parseInt (offset q))%Z /\ (0 <= parseInt (limit q))%Z /\
  users l = page q t /\
  totalCount l = length (List.filter (matches (where_of q)) t) /\
  nextOffset l =
    if js_lt (js_add (offset q) (N.of_nat (length (users l))))
             (Z.of_nat (totalCount l))
    then Some (parseInt (offset q) + parseInt (limit q))%Z else None.
Proof.
  rewrite getAllUsers_unfold.
  destruct (Z.ltb_spec (parseInt (offset q)) 0); [discriminate|].
  destruct (Z.ltb_spec (parseInt (limit q)) 0); [discriminate|].
  intros [= <- <-]. by cbn.
Qed.

(** C7: no user object of a listing carries the refresh token, the
    confirmation code or its expiry. *)
Theorem getAllUsers_hides_sensitive (q : ListQuery) (t : Table) l t' :
  getAllUsers q t = (Ok l, t') ->
  forall u, In u (users l) ->
    u !! "refresh_token" = None /\
    u !! "email_confirmation_otp" = None /\
    u !! "email_confirmation_otp_expires" = None.
Proof.
  intros (_ & _ & _ & Hu & _)%getAllUsers_Ok u. rewrite Hu. unfold page.
  intros (r & <- & _)%in_map_iff. unfold omit, sensitive. cbn [foldr].
  repeat split; by simplify_map_eq.
Qed.

(** X18: with [offset] a number, the cursor is as specified: null once the
    offset plus the rows returned reaches the total, [offset + limit]
    before. *)
Lemma getAllUsers_nextOffset_number lim off srch rl (t : Table) l t' :
  getAllUsers {| limit := lim; offset := Number off; search := srch; role := rl |} t
    = (Ok l, t') ->
  (nextOffset l = None <->
     (off + Z.of_nat (length (users l)) >= Z.of_nat (totalCount l))%Z) /\
  ((off + Z.of_nat (length (users l)) < Z.of_nat (totalCount l))%Z ->
     nextOffset l = Some (off + parseInt lim)%Z).
Proof.
  intros (_ & _ & _ & _ & _ & Hnext)%getAllUsers_Ok. rewrite Hnext.
  cbn [offset limit js_add js_lt parseInt]. rewrite nat_N_Z.
  destruct (Z.ltb_spec (off + Z.of_nat (length (users l))) (Z.of_nat (totalCount l)));
    (split; [split|]); intros; try done; try lia.
Qed.

(** C8: with the offset given as the string ["1"], a limit of one and three
    users, the second page has one row of three and a next page exists
    (1 + 1 < 3), yet [nextOffset] is null: the sum is the string ["11"]. *)
Theorem getAllUsers_nextOffset_string_offset :
  let q := {| limit := Digits 1; offset := Digits 1; search := ""; role := VNull |} in
  exists l,
    getAllUsers q sample_table = (Ok l, sample_table) /\
    length (users l) = 1%nat /\ totalCount l = 3%nat /\
    js_add (offset q) 1 = VStr "11" /\
    nextOffset l = None.
Proof.
  intros q.
  exists {| users := page q sample_table; totalCount := 3; nextOffset := None |}.
  split; [|by vm_compute]. rewrite getAllUsers_unfold.
  change (parseInt (offset q) <? 0)%Z with false.
  change (parseInt (limit q) <? 0)%Z with false. cbv iota.
  replace (length (List.filter (matches (where_of q)) sample_table)) with 3%nat
    by (by vm_compute).
  replace (length (page q sample_table)) with 1%nat by (by vm_compute).
  reflexivity.
Qed.

(** ** createUser *)

Lemma fresh_id_bound (t : Table) (r : Row) n :
  In r t -> attr r "id" = VInt n -> (n < UserModel.fresh_id t)%Z.
Proof.
  unfold UserModel.fresh_id. induction t as [|x t IH]; [done|].
  intros [->|Hin] Hid; cbn [List.map foldr].
  - rewrite Hid. lia.
  - specialize (IH Hin Hid). lia.
Qed.

Lemma fresh_id_fresh (t : Table) (r : Row) :
  In r t -> attr r "id" <> VInt (UserModel.fresh_id t).
Proof. intros Hin Hid. pose proof (fresh_id_bound t r _ Hin Hid). lia. Qed.

Lemma find_required_None (required : list string) (userData : Row) :
  List.find (fun a => is_null (attr userData a)) required = None <->
  (forall a, In a required -> attr userData a <> VNull).
Proof.
  split.
  - intros H a Ha Hnull. pose proof (find_none _ _ H a Ha) as Hf.
    cbv beta in Hf. by rewrite Hnull in Hf.
  - intros H. apply find_all_false. intros a Ha. specialize (H a Ha).
    by destruct (attr userData a).
Qed.

Lemma create_accepted required createdAt (userData : Row) (t : Table) :
  accepted required userData t ->
  UserModel.create required createdAt userData t
  = (Ok (created_row createdAt userData t),
     (t ++ [created_row createdAt userData t])%list).
Proof.
  intros [Hreq Hmail]. unfold UserModel.create.
  apply find_required_None in Hreq. by rewrite Hreq, Hmail.
Qed.

Lemma created_row_attr createdAt (userData : Row) (t : Table) a :
  attr (created_row createdAt userData t) a =
  if decide ("id" = a) then VInt (UserModel.fresh_id t)
  else if decide ("created_at" = a) then VDate createdAt
  else match UserModel.known userData !! a with
       | Some v => v
       | None => attr UserModel.defaults a
       end.
Proof. unfold created_row. by rewrite !attr_insert, attr_union. Qed.

Lemma issue_fresh_only otp now createdAt (userData : Row) (t : Table) :
  List.map (fun r => if bool_decide (attr r "id" = VInt (UserModel.fresh_id t))
                     then issue otp now r else r)
    (t ++ [created_row createdAt userData t])
  = (t ++ [issue otp now (created_row createdAt userData t)])%list.
Proof.
  rewrite map_app. f_equal.
  - rewrite <- (map_id t) at 2. apply map_ext_in. intros r Hr.
    rewrite bool_decide_eq_false_2; [done|]. by apply fresh_id_fresh.
  - cbn [List.map]. rewrite bool_decide_eq_true_2; [done|].
    by rewrite created_row_attr.
Qed.




(** ** The invariant of the confirmation fields *)

Lemma updateUserOTP_unfold send now userId (t : Table) :
  updateUserOTP send now userId t =
  match List.find (matches [CEq "id" (VInt userId)]) t with
  | None => (Err (JsError "User not found"), t)
  | Some user =>
    match send (attr user "email") (attr user "id") with
    | Ok otp =>
      (Ok user,
       List.map (fun r => if bool_decide (attr r "id" = VInt userId)
                          then issue otp now r else r) t)
    | Err e => (Err e, t)
    end
  end.
Proof.
  unfold updateUserOTP, try_catch, getUserById, UserModel.findByPk,
    UserModel.findOne, read, mbind, M_bind.
  destruct (List.find _ t) as [user|]; [|reflexivity].
  unfold lift. destruct (send _ _) as [otp|e]; [|reflexivity].
  by rewrite update_issue.
Qed.

Lemma createUser_unfold send required createdAt now (userData : Row) (t : Table) :
  createUser send required createdAt now userData t =
  match List.find (fun a => is_null (attr userData a)) required with
  | Some a => (Err (ValidationError a), t)
  | None =>
    if UserModel.email_taken (attr userData "email") t
    then (Err (UniqueConstraintError "email"), t)
    else
      let user := created_row createdAt userData t in
      match send (attr user "email") (attr user "id") with
      | Ok otp => (Ok user, (t ++ [issue otp now user])%list)
      | Err e => (Err e, (t ++ [user])%list)
      end
  end.
Proof.
  unfold createUser, mbind, M_bind, UserModel.create. fold (created_row createdAt userData t).
  destruct (List.find _ required); [reflexivity|].
  destruct (UserModel.email_taken _ t); [reflexivity|]. cbv zeta.
  unfold lift. destruct (send _ _) as [otp|e]; [|reflexivity].
  replace (attr (created_row createdAt userData t) "id")
    with (VInt (UserModel.fresh_id t)) by (by rewrite created_row_attr).
  by rewrite update_issue, issue_fresh_only.
Qed.


Lemma user_invariant_same (r r' : Row) :
  (forall a, In a confirmation_attributes -> attr r' a = attr r a) ->
  user_invariant r -> user_invariant r'.
Proof.
  intros H. unfold user_invariant, otp_paired, confirmed_clear.
  rewrite !H; [done|unfold confirmation_attributes; simpl; tauto..].
Qed.

Lemma user_invariant_confirm (r : Row) : user_invariant (confirm r).
Proof.
  unfold user_invariant, otp_paired, confirmed_clear, confirm.
  rewrite !attr_insert. by repeat case_decide.
Qed.

Lemma otp_paired_issue otp now (r : Row) : otp_paired (issue otp now r).
Proof.
  unfold otp_paired, issue. rewrite !attr_insert.
  repeat case_decide; try congruence; by split.
Qed.

Lemma user_invariant_issue otp now (r : Row) :
  attr r "email_confirmed" <> VBool true -> user_invariant (issue otp now r).
Proof.
  intros Hc. split; [apply otp_paired_issue|].
  unfold confirmed_clear, issue. rewrite !attr_insert.
  repeat (case_decide; [discriminate|]). done.
Qed.

Lemma attr_known_untouched (userData r : Row) a l :
  untouched userData l -> In a l -> attr (UserModel.known userData ∪ r) a = attr r a.
Proof.
  intros Hu Ha. rewrite attr_union, known_lookup.
  unfold untouched in Hu. rewrite Forall_forall in Hu.
  rewrite (Hu a) by (by apply list_elem_of_In). by destruct (UserModel.is_attribute a).
Qed.

Lemma user_invariant_created createdAt (userData : Row) (t : Table) :
  untouched userData confirmation_attributes ->
  user_invariant (created_row createdAt userData t) /\
  attr (created_row createdAt userData t) "email_confirmed" <> VBool true.
Proof.
  intros Hu. unfold untouched in Hu. rewrite Forall_forall in Hu.
  assert (H1 := Hu "email_confirmed" ltac:(set_solver)).
  assert (H2 := Hu "email_confirmation_otp" ltac:(set_solver)).
  assert (H3 := Hu "email_confirmation_otp_expires" ltac:(set_solver)).
  unfold user_invariant, otp_paired, confirmed_clear.
  rewrite !created_row_attr, !known_lookup, H1, H2, H3.
  repeat (case_decide; [discriminate|]). by vm_compute.
Qed.

Lemma user_invariant_created_google createdAt (userData : Row) (t : Table) :
  untouched userData ["email_confirmation_otp"; "email_confirmation_otp_expires"] ->
  user_invariant (created_row createdAt (<[ "email_confirmed" := VBool true ]> userData) t).
Proof.
  intros Hu. unfold untouched in Hu. rewrite Forall_forall in Hu.
  assert (H2 := Hu "email_confirmation_otp" ltac:(set_solver)).
  assert (H3 := Hu "email_confirmation_otp_expires" ltac:(set_solver)).
  unfold user_invariant, otp_paired, confirmed_clear.
  rewrite !created_row_attr, !known_lookup, !lookup_insert, H2, H3.
  repeat (case_decide; [discriminate|]). by vm_compute.
Qed.

(** The invariant does not survive every operation: a resent code lands on a
    confirmed account, a direct update can set a code without an expiry, and
    a registration can arrive confirmed. *)
Lemma invariant_not_preserved :
  store_invariant sample_table /\
  ~ store_invariant
      (updateUserOTP (send_fixed "123456") 100 2 sample_table).2 /\
  ~ store_invariant
      (updateUser 3 {[ "email_confirmation_otp" := VStr "123456" ]} sample_table).2 /\
  ~ store_invariant
      (createUser (send_fixed "123456") ["email"] 7 8
         {[ "email" := VStr "dave@example.com"; "email_confirmed" := VBool true ]}
         sample_table).2.
Proof.
  repeat split.
  - apply (bool_decide_unpack _). by vm_compute.
  - apply (bool_decide_eq_false_1 _). by vm_compute.
  - apply (bool_decide_eq_false_1 _). by vm_compute.
  - apply (bool_decide_eq_false_1 _). by vm_compute.
Qed.

(** C3 (as amended): [verifyEmailOTP], [deleteUser] and [revokeRefreshToken]
    preserve the invariant; [updateUserOTP] keeps code and expiry paired and
    preserves the invariant when no user of that id is confirmed;
    [createUser] and [updateUser] preserve it when userData names none of
    the three confirmation attributes, [createGoogleUser] when it names
    neither code attribute. *)
Theorem invariant_preserved send required (t : Table) :
  store_invariant t ->
  (forall now userId otp,
     store_invariant (verifyEmailOTP now userId otp t).2) /\
  (forall id, store_invariant (deleteUser id t).2) /\
  (forall userId, store_invariant (revokeRefreshToken userId t).2) /\
  (forall now userId,
     Forall otp_paired (updateUserOTP send now userId t).2 /\
     ((forall r, In r t -> attr r "id" = VInt userId ->
                 attr r "email_confirmed" <> VBool true) ->
      store_invariant (updateUserOTP send now userId t).2)) /\
  (forall createdAt now userData,
     untouched userData confirmation_attributes ->
     store_invariant (createUser send required createdAt now userData t).2) /\
  (forall createdAt userData,
     untouched userData ["email_confirmation_otp"; "email_confirmation_otp_expires"] ->
     store_invariant (createGoogleUser required createdAt userData t).2) /\
  (forall id userData,
     untouched userData confirmation_attributes ->
     store_invariant (updateUser id userData t).2).
Proof.
  unfold store_invariant. intros Hinv.
  assert (Hpaired : Forall otp_paired t).
  { eapply Forall_impl; [exact Hinv|]. by intros r [? _]. }
  repeat split.
  - (* verifyEmailOTP *)
    intros now userId otp. rewrite verifyEmailOTP_unfold.
    destruct (List.find _ t); [|done]. cbn [snd].
    apply Forall_forall. intros x (r & <- & Hr)%list_elem_of_In%in_map_iff.
    case_bool_decide; [apply user_invariant_confirm|].
    rewrite Forall_forall in Hinv. by apply Hinv, list_elem_of_In.
  - (* deleteUser *)
    intros id. unfold deleteUser, UserModel.destroy. cbn [snd].
    apply Forall_forall. intros x [Hx _]%list_elem_of_In%filter_In.
    rewrite Forall_forall in Hinv. by apply Hinv, list_elem_of_In.
  - (* revokeRefreshToken *)
    intros userId. by rewrite revokeRefreshToken_writes_nothing.
  - (* updateUserOTP keeps the pair *)
    rewrite updateUserOTP_unfold.
    destruct (List.find _ t) as [user|]; [|done].
    destruct (send _ _) as [otp|e]; [|done]. cbn [snd].
    apply Forall_forall. intros x (r & <- & Hr)%list_elem_of_In%in_map_iff.
    case_bool_decide; [apply otp_paired_issue|].
    rewrite Forall_forall in Hpaired. by apply Hpaired, list_elem_of_In.
  - (* updateUserOTP on unconfirmed users *)
    intros Hunconf. rewrite updateUserOTP_unfold.
    destruct (List.find _ t) as [user|]; [|done].
    destruct (send _ _) as [otp|e]; [|done]. cbn [snd].
    apply Forall_forall. intros x (r & <- & Hr)%list_elem_of_In%in_map_iff.
    case_bool_decide; [by apply user_invariant_issue, Hunconf|].
    rewrite Forall_forall in Hinv. by apply Hinv, list_elem_of_In.
  - (* createUser *)
    intros createdAt now userData Hu. rewrite createUser_unfold.
    destruct (List.find _ required); [done|].
    destruct (UserModel.email_taken _ t); [done|]. cbv zeta.
    destruct (user_invariant_created createdAt userData t Hu) as [Hrow Hunconf].
    destruct (send _ _) as [otp|e]; cbn [snd]; apply Forall_app; split; try done.
    + apply Forall_singleton. by apply user_invariant_issue.
    + by apply Forall_singleton.
  - (* createGoogleUser *)
    intros createdAt userData Hu. unfold createGoogleUser, UserModel.create.
    destruct (List.find _ required); [done|].
    destruct (UserModel.email_taken _ t); [done|]. cbn [snd].
    apply Forall_app; split; [done|]. apply Forall_singleton.
    by apply user_invariant_created_google.
  - (* updateUser *)
    intros id userData Hu. rewrite updateUser_table.
    destruct (update_table_cases userData [CEq "id" (VInt id)] t) as [->| ->];
      [done|].
    apply Forall_forall. intros x (r & <- & Hr)%list_elem_of_In%in_map_iff.
    rewrite Forall_forall in Hinv. specialize (Hinv r (proj2 (list_elem_of_In _ _) Hr)).
    destruct (matches _ r); [|done].
    eapply user_invariant_same; [|exact Hinv].
    intros a Ha. by eapply attr_known_untouched.
Qed.

(** ** Patterns and substrings *)

Lemma prefixb_spec (p s : list ascii) :
  prefixb p s = true <-> exists v, s = (p ++ v)%list.
Proof.
  revert s. induction p as [|c p IH]; intros s; cbn [prefixb].
  - split; [intros _; by exists s|done].
  - destruct s as [|d s]; [split; [done|by intros [v [=]]]|].
    rewrite andb_true_iff, IH. split.
    + intros [->%Ascii.eqb_eq [v ->]]. by exists v.
    + intros [v [= -> ->]]. split; [apply Ascii.eqb_refl|by exists v].
Qed.

(** [infixb] decides the substring relation. *)
Lemma infixb_spec (p s : list ascii) :
  infixb p s = true <-> exists u v, s = (u ++ p ++ v)%list.
Proof.
  induction s as [|d s IH]; cbn [infixb]; rewrite orb_true_iff, prefixb_spec.
  - split.
    + intros [[v Hv]|[=]]. by exists [], v.
    + intros (u & v & Huv). left. destruct u; [by exists v|discriminate].
  - rewrite IH. split.
    + intros [[v Hv]|(u & v & ->)]; [by exists [], v|by exists (d :: u), v].
    + intros (u & v & Huv). destruct u as [|d' u].
      * left. by exists v.
      * right. injection Huv as -> ->. by exists u, v.
Qed.

Lemma like_match_percent_unfold (q s : list ascii) :
  like_match ("%"%char :: q) s =
  like_match q s || match s with [] => false | _ :: s' => like_match ("%"%char :: q) s' end.
Proof. by destruct s. Qed.

Lemma like_match_any (s : list ascii) : like_match ["%"%char] s = true.
Proof.
  induction s as [|d s IH]; [reflexivity|].
  rewrite like_match_percent_unfold. by rewrite IH, orb_true_r.
Qed.

Lemma like_match_plain_prefix (p s : list ascii) :
  forallb (fun c => negb (wildcard c)) p = true ->
  like_match (p ++ ["%"%char]) s = prefixb p s.
Proof.
  revert s. induction p as [|c p IH]; intros s Hp.
  - apply like_match_any.
  - cbn [forallb] in Hp. apply andb_true_iff in Hp as [Hc Hp].
    unfold wildcard in Hc. rewrite !negb_orb, !andb_true_iff, !negb_true_iff in Hc.
    destruct Hc as [[H1 H2] H3].
    cbn [app like_match prefixb]. rewrite H1, H2, H3.
    destruct s as [|d s]; [reflexivity|]. by rewrite IH.
Qed.

Lemma like_match_plain_infix (p s : list ascii) :
  forallb (fun c => negb (wildcard c)) p = true ->
  like_match ("%"%char :: p ++ ["%"%char]) s = infixb p s.
Proof.
  intros Hp. induction s as [|d s IH];
    rewrite like_match_percent_unfold, like_match_plain_prefix by done;
    cbn [infixb]; [done|]. by rewrite IH.
Qed.

Lemma list_ascii_of_string_app (a b : string) :
  list_ascii_of_string (a +:+ b)
  = (list_ascii_of_string a ++ list_ascii_of_string b)%list.
Proof. induction a as [|c a IH]; [done|]. simpl. f_equal. exact IH. Qed.

Lemma wildcard_lower (c : ascii) : wildcard (lower_ascii c) = wildcard c.
Proof. by destruct c as [[] [] [] [] [] [] [] []]. Qed.

Lemma plain_lower (l : list ascii) :
  forallb (fun c => negb (wildcard c)) (lower l)
  = forallb (fun c => negb (wildcard c)) l.
Proof.
  induction l as [|c l IH]; [done|]. cbn [lower List.map forallb].
  fold (lower l). by rewrite wildcard_lower, IH.
Qed.

Lemma lower_pattern (term : string) :
  lower (list_ascii_of_string (pattern_of term))
  = ("%"%char :: lower (list_ascii_of_string term) ++ ["%"%char])%list.
Proof.
  unfold pattern_of. rewrite !list_ascii_of_string_app. unfold lower.
  cbn [list_ascii_of_string app List.map]. by rewrite map_app.
Qed.

(** For a term without wildcards the pattern match is the substring test. *)
Lemma sql_ilike_plain (term : string) (x : Value) :
  plain_term term ->
  sql_ilike x (pattern_of term) = true <-> field_contains term x.
Proof.
  intros Hp. unfold field_contains, contains_ci.
  destruct x as [| | |s|]; cbn [sql_ilike];
    try (split; [done|by intros (s' & [=] & _)]).
  rewrite lower_pattern, like_match_plain_infix by (by rewrite plain_lower).
  split; [intros H; by exists s|by intros (s' & [= <-] & H)].
Qed.

(** ** The order and the page of a listing *)

Global Instance before_desc_trans a : Transitive (before_desc a).
Proof.
  intros x y z. unfold before_desc, desc_leb.
  destruct (order_key (attr x a)), (order_key (attr y a)), (order_key (attr z a));
    try done. rewrite !Z.leb_le. lia.
Qed.

Global Instance before_desc_total a : Total (before_desc a).
Proof.
  intros x y. unfold before_desc, desc_leb.
  destruct (order_key (attr x a)), (order_key (attr y a)); auto.
  rewrite !Z.leb_le. lia.
Qed.

Lemma StronglySorted_sublist {A : Type} (R : relation A) (l1 l2 : list A) :
  l1 `sublist_of` l2 -> StronglySorted R l2 -> StronglySorted R l1.
Proof.
  induction 1 as [|x l1 l2 Hsub IH|x l1 l2 Hsub IH]; intros Hs; [done| |].
  - apply StronglySorted_inv in Hs as [Hs Hall]. constructor; [auto|].
    rewrite Forall_forall in Hall |- *. intros y Hy. apply Hall.
    by eapply elem_of_sublist.
  - apply StronglySorted_inv in Hs as [Hs _]. auto.
Qed.

Lemma attr_omit (l : list string) (r : Row) a :
  attr (omit l r) a = if decide (a ∈ l) then VNull else attr r a.
Proof.
  unfold attr, omit. induction l as [|b l IH]; cbn [foldr].
  - rewrite decide_False; [done|]. apply not_elem_of_nil.
  - rewrite lookup_delete. destruct (decide (b = a)) as [->|Hb].
    + rewrite decide_True; [done|]. apply list_elem_of_here.
    + rewrite IH. destruct (decide (a ∈ l)) as [Hl|Hl].
      * rewrite decide_True; [done|]. by apply list_elem_of_further.
      * rewrite decide_False; [done|]. intros [->|H]%elem_of_cons; done.
Qed.

Lemma attr_omit_sensitive (r : Row) a :
  a ∉ sensitive -> attr (omit sensitive r) a = attr r a.
Proof. intros Ha. by rewrite attr_omit, decide_False. Qed.

Ltac not_sensitive := apply (bool_decide_unpack _); by vm_compute.

Lemma selected_Permutation (q : ListQuery) (t : Table) :
  selected q t ≡ₚ List.filter (matches (where_of q)) t.
Proof. apply merge_sort_Permutation. Qed.

Lemma selected_sorted (q : ListQuery) (t : Table) :
  StronglySorted (before_desc "created_at") (selected q t).
Proof. apply StronglySorted_merge_sort; apply _. Qed.

Lemma page_sorted (q : ListQuery) (t : Table) :
  StronglySorted (before_desc "created_at") (page q t).
Proof.
  unfold page.
  apply (StronglySorted_fmap (omit sensitive) (before_desc "created_at")).
  - intros x y. unfold before_desc.
    by rewrite !attr_omit_sensitive by not_sensitive.
  - eapply StronglySorted_sublist; [|apply selected_sorted].
    etransitivity; [apply sublist_take|apply sublist_drop].
Qed.

(** Every row of a page is a selected row of the table, less its sensitive
    attributes. *)
Lemma page_from_table (q : ListQuery) (t : Table) u :
  In u (page q t) ->
  exists r, In r t /\ matches (where_of q) r = true /\ u = omit sensitive r.
Proof.
  unfold page. intros (r & <- & Hr)%in_map_iff. exists r.
  assert (Hsel : r ∈ selected q t).
  { eapply elem_of_sublist; [by apply list_elem_of_In|].
    etransitivity; [apply sublist_take|apply sublist_drop]. }
  rewrite selected_Permutation in Hsel.
  apply list_elem_of_In, filter_In in Hsel as [? ?]. done.
Qed.

(** A page that starts at 0 and is long enough holds every selected row. *)
Lemma page_whole (q : ListQuery) (t : Table) :
  parseInt (offset q) = 0%Z ->
  (Z.of_nat (length (List.filter (matches (where_of q)) t)) <= parseInt (limit q))%Z ->
  page q t = List.map (omit sensitive) (selected q t).
Proof.
  intros Ho Hl. unfold page. rewrite Ho. cbn [Z.to_nat]. rewrite drop_0.
  rewrite take_ge; [done|]. rewrite selected_Permutation. lia.
Qed.

Lemma where_of_search (q : ListQuery) (r : Row) :
  search q <> "" -> matches (where_of q) r = true ->
  sql_ilike (attr r "first_name") (pattern_of (search q)) = true \/
  sql_ilike (attr r "last_name") (pattern_of (search q)) = true \/
  sql_ilike (attr r "email") (pattern_of (search q)) = true.
Proof.
  intros Hs. unfold where_of, truthy.
  destruct (String.eqb_spec (search q) ""); [done|]. cbn [negb].
  unfold matches. rewrite forallb_app. cbn [forallb holds existsb].
  fold (pattern_of (search q)).
  rewrite !andb_true_iff, !orb_true_iff.
  intros [[[H|[H|[H|H]]] _] _]; auto. discriminate.
Qed.

Lemma where_of_role (q : ListQuery) (r : Row) :
  truthy (role q) = true -> matches (where_of q) r = true ->
  attr r "role" = role q.
Proof.
  intros Hr. unfold where_of. rewrite Hr. unfold matches.
  rewrite forallb_app. cbn [forallb holds].
  rewrite !andb_true_iff. intros (_ & Heq & _).
  destruct (role q); try done; by apply bool_decide_eq_true in Heq.
Qed.

Lemma where_of_unfiltered (q : ListQuery) :
  search q = "" -> truthy (role q) = false -> where_of q = [].
Proof. intros Hs Hr. unfold where_of. by rewrite Hs, Hr. Qed.

(** The listing is a page, a pattern is not a substring, and an empty role is
    no filter: one row of three on a page of one; every row for the search
    term ["_"], which occurs in no name or email; both roles for [role = ""]. *)
Lemma getAllUsers_not_all_not_substring :
  (let q := {| limit := Number 1; offset := Number 0; search := ""; role := VNull |} in
   getAllUsers q sample_table = (Ok (listing q sample_table), sample_table) /\
   length (users (listing q sample_table)) = 1%nat /\
   length sample_table = 3%nat) /\
  (let q := {| limit := Number 10; offset := Number 0; search := "_"; role := VNull |} in
   getAllUsers q sample_table = (Ok (listing q sample_table), sample_table) /\
   length (users (listing q sample_table)) = 3%nat /\
   forall u, In u (users (listing q sample_table)) ->
     ~ field_contains "_" (attr u "first_name") /\
     ~ field_contains "_" (attr u "last_name") /\
     ~ field_contains "_" (attr u "email")) /\
  (let q := {| limit := Number 10; offset := Number 0; search := ""; role := VStr "" |} in
   getAllUsers q sample_table = (Ok (listing q sample_table), sample_table) /\
   List.map (fun u => attr u "role") (users (listing q sample_table))
     = [VStr "user"; VStr "admin"; VStr "user"]).
Proof.
  split; [|split]; intros q.
  - split; [by apply getAllUsers_run|]. by vm_compute.
  - split; [by apply getAllUsers_run|]. split; [by vm_compute|].
    assert (Hno : forall v s,
              v = VStr s ->
              infixb (lower (list_ascii_of_string "_"))
                     (lower (list_ascii_of_string s)) = false ->
              ~ field_contains "_" v).
    { intros v s -> Hf (s' & [= <-] & Hc). unfold contains_ci in Hc. congruence. }
    intros u (r & Hr & _ & ->)%page_from_table.
    rewrite !attr_omit_sensitive by not_sensitive.
    destruct Hr as [<-|[<-|[<-|[]]]]; repeat split;
      (eapply Hno; [by vm_compute|by vm_compute]).
  - split; [by apply getAllUsers_run|]. by vm_compute.
Qed.

Lemma StronglySorted_lookup_lt {A : Type} (R : relation A) (l : list A) i j x y :
  StronglySorted R l -> (i < j)%nat -> l !! i = Some x -> l !! j = Some y -> R x y.
Proof.
  intros Hs. revert i j. induction Hs as [|z l Hs IH Hall]; intros i j Hij Hi Hj.
  - by rewrite lookup_nil in Hi.
  - destruct j as [|j]; [lia|]. destruct i as [|i]; cbn in Hi, Hj.
    + injection Hi as ->. rewrite Forall_forall in Hall.
      apply Hall. by eapply list_elem_of_lookup_2.
    + apply (IH i j); [lia|done..].
Qed.

Lemma page_newest_first (q : ListQuery) (t : Table) i j u v a b :
  (i < j)%nat -> page q t !! i = Some u -> page q t !! j = Some v ->
  attr u "created_at" = VDate a -> attr v "created_at" = VDate b -> (b <= a)%Z.
Proof.
  intros Hij Hi Hj Ha Hb.
  pose proof (StronglySorted_lookup_lt _ _ _ _ _ _ (page_sorted q t) Hij Hi Hj) as H.
  unfold before_desc, desc_leb in H. rewrite Ha, Hb in H. by apply Z.leb_le.
Qed.

(** C6 (as amended): a listing is one page — [limit] rows after the first
    [offset] — of the selected rows in descending order of [created_at], and
    all of them when the page starts at 0 and is long enough. Without a
    search term and with a null or empty role every row is selected; with a
    non-empty role only rows of exactly that role; with a search term only
    rows on which the pattern [%term%] matches the first name, the last name
    or the email without regard to case, which for a term free of the
    wildcards [%], [_] and backslash means that the term occurs in one of
    them. *)
Theorem getAllUsers_selection (q : ListQuery) (t : Table) l t' :
  getAllUsers q t = (Ok l, t') ->
  users l = List.map (omit sensitive)
              (take (Z.to_nat (parseInt (limit q)))
                 (drop (Z.to_nat (parseInt (offset q))) (selected q t))) /\
  selected q t ≡ₚ List.filter (matches (where_of q)) t /\
  StronglySorted (before_desc "created_at") (selected q t) /\
  (forall i j u v a b,
     (i < j)%nat -> users l !! i = Some u -> users l !! j = Some v ->
     attr u "created_at" = VDate a -> attr v "created_at" = VDate b ->
     (b <= a)%Z) /\
  (parseInt (offset q) = 0%Z ->
   (Z.of_nat (totalCount l) <= parseInt (limit q))%Z ->
   users l = List.map (omit sensitive) (selected q t)) /\
  (search q = "" -> truthy (role q) = false ->
   selected q t ≡ₚ t /\ totalCount l = length t) /\
  (truthy (role q) = true ->
   forall u, In u (users l) -> attr u "role" = role q) /\
  (search q <> "" ->
   forall u, In u (users l) ->
     sql_ilike (attr u "first_name") (pattern_of (search q)) = true \/
     sql_ilike (attr u "last_name") (pattern_of (search q)) = true \/
     sql_ilike (attr u "email") (pattern_of (search q)) = true) /\
  (search q <> "" -> plain_term (search q) ->
   forall u, In u (users l) ->
     field_contains (search q) (attr u "first_name") \/
     field_contains (search q) (attr u "last_name") \/
     field_contains (search q) (attr u "email")).
Proof.
  intros (_ & _ & _ & Hu & Hcount & _)%getAllUsers_Ok. rewrite Hu, Hcount.
  assert (Hsearch : search q <> "" ->
    forall u, In u (page q t) ->
      sql_ilike (attr u "first_name") (pattern_of (search q)) = true \/
      sql_ilike (attr u "last_name") (pattern_of (search q)) = true \/
      sql_ilike (attr u "email") (pattern_of (search q)) = true).
  { intros Hs u (r & _ & Hm & ->)%page_from_table.
    rewrite !attr_omit_sensitive by not_sensitive. by apply where_of_search. }
  split; [reflexivity|]. split; [apply selected_Permutation|].
  split; [apply selected_sorted|]. split; [apply page_newest_first|].
  split; [|split; [|split; [|split]]].
  - apply page_whole.
  - intros Hs Hr. rewrite selected_Permutation, where_of_unfiltered by done.
    by rewrite filter_all.
  - intros Hr u (r & _ & Hm & ->)%page_from_table.
    rewrite attr_omit_sensitive by not_sensitive. by apply where_of_role.
  - exact Hsearch.
  - intros Hs Hp u Hin. rewrite <- !sql_ilike_plain by done. by apply Hsearch.
Qed.

(** ** Worked instances on the sample table *)

Lemma alice_otp_valid : otp_valid 100 1 "111111" alice.
Proof.
  unfold otp_valid. split; [by vm_compute|]. split; [by vm_compute|].
  exists 5000%Z. split; [by vm_compute|lia].
Qed.

Lemma sample_table_no_id_9 (r : Row) : In r sample_table -> attr r "id" <> VInt 9.
Proof. intros [<-|[<-|[<-|[]]]]; by vm_compute. Qed.

Lemma verifyEmailOTP_spec_witness :
  exists u t', verifyEmailOTP 100 1 "111111" sample_table = (Ok u, t').
Proof.
  apply (proj2 (proj1 (verifyEmailOTP_spec 100 1 "111111" sample_table))).
  exists alice. split; [by left|apply alice_otp_valid].
Defined.

Lemma verifyEmailOTP_failure_no_write_witness :
  verifyEmailOTP 100 1 "000000" sample_table
    = (Err invalid_or_expired, sample_table) /\
  sample_table = sample_table.
Proof.
  assert (H : verifyEmailOTP 100 1 "000000" sample_table
              = (Err invalid_or_expired, sample_table)).
  { rewrite verifyEmailOTP_unfold. rewrite find_all_false; [done|].
    intros r [<-|[<-|[<-|[]]]]; by vm_compute. }
  split; [exact H|].
  exact (verifyEmailOTP_failure_no_write 100 1 "000000" sample_table
           invalid_or_expired sample_table H).
Defined.

Lemma invariant_preserved_witness :
  store_invariant sample_table /\
  store_invariant (verifyEmailOTP 100 1 "111111" sample_table).2 /\
  store_invariant (updateUserOTP (send_fixed "123456") 100 1 sample_table).2 /\
  store_invariant
    (createUser (send_fixed "123456") ["email"] 7 8
       {[ "email" := VStr "dave@example.com" ]} sample_table).2.
Proof.
  assert (Hinv : store_invariant sample_table)
    by (apply (bool_decide_unpack _); by vm_compute).
  destruct (invariant_preserved (send_fixed "123456") ["email"] sample_table Hinv)
    as (Hverify & _ & _ & Hresend & Hcreate & _).
  split; [exact Hinv|]. split; [apply Hverify|]. split.
  - apply Hresend. intros r [<-|[<-|[<-|[]]]]; by vm_compute.
  - apply Hcreate. apply (bool_decide_unpack _). by vm_compute.
Defined.


Lemma updateUserOTP_spec_witness :
  updateUserOTP (send_fixed "123456") 100 9 sample_table
    = (Err (JsError "User not found"), sample_table) /\
  exists user, In user sample_table /\ attr user "id" = VInt 1 /\
    exists t', updateUserOTP (send_fixed "123456") 100 1 sample_table = (Ok user, t').
Proof.
  split.
  - apply (proj1 (updateUserOTP_spec (send_fixed "123456") 100 9 sample_table)).
    apply sample_table_no_id_9.
  - destruct (proj2 (updateUserOTP_spec (send_fixed "123456") 100 1 sample_table)
                alice (or_introl eq_refl) eq_refl)
      as (user & Hin & Hid & Hrun).
    exists user. split; [exact Hin|]. split; [exact Hid|].
    destruct (Hrun "123456" eq_refl) as (t' & Ht' & _). by exists t'.
Defined.

Lemma deleteUser_missing_witness :
  deleteUser 9 sample_table = (Ok 0%nat, sample_table).
Proof. apply (deleteUser_missing 9 sample_table), sample_table_no_id_9. Defined.

Lemma getAllUsers_hides_sensitive_witness :
  getAllUsers default_query sample_table
    = (Ok (listing default_query sample_table), sample_table) /\
  In (omit sensitive alice) (users (listing default_query sample_table)) /\
  omit sensitive alice !! "refresh_token" = None /\
  omit sensitive alice !! "email_confirmation_otp" = None /\
  omit sensitive alice !! "email_confirmation_otp_expires" = None.
Proof.
  assert (Hrun : getAllUsers default_query sample_table
                 = (Ok (listing default_query sample_table), sample_table))
    by (by apply getAllUsers_run).
  assert (Hin : In (omit sensitive alice) (users (listing default_query sample_table))).
  { cbn [users listing]. rewrite page_whole by (by vm_compute).
    apply in_map. apply list_elem_of_In. rewrite selected_Permutation.
    apply list_elem_of_In, filter_In. split; [by left|by vm_compute]. }
  split; [exact Hrun|]. split; [exact Hin|].
  exact (getAllUsers_hides_sensitive default_query sample_table _ _ Hrun _ Hin).
Defined.

Lemma getAllUsers_selection_witness :
  let q := {| limit := Number 10; offset := Number 0;
              search := "ali"; role := VStr "user" |} in
  getAllUsers q sample_table = (Ok (listing q sample_table), sample_table) /\
  (forall u, In u (users (listing q sample_table)) -> attr u "role" = VStr "user") /\
  (forall u, In u (users (listing q sample_table)) ->
     field_contains "ali" (attr u "first_name") \/
     field_contains "ali" (attr u "last_name") \/
     field_contains "ali" (attr u "email")).
Proof.
  intros q.
  assert (Hrun : getAllUsers q sample_table = (Ok (listing q sample_table), sample_table))
    by (by apply getAllUsers_run).
  destruct (getAllUsers_selection q sample_table _ _ Hrun)
    as (_ & _ & _ & _ & _ & _ & Hrole & _ & Hterm).
  split; [exact Hrun|]. split.
  - apply Hrole. reflexivity.
  - apply Hterm; [discriminate|reflexivity].
Defined.

(** ** Issued codes: resend, registration and verification together *)

Lemma attr_issue_id otp now (r : Row) : attr (issue otp now r) "id" = attr r "id".
Proof. unfold issue. by rewrite !attr_insert. Qed.

Lemma otp_valid_issue now now' userId otp otp' (r : Row) :
  otp_valid now' userId otp' (issue otp now r) <->
  attr r "id" = VInt userId /\ otp' = otp /\ (now' < now + 900 * 1000)%Z.
Proof.
  unfold otp_valid. rewrite attr_issue_id. unfold issue. rewrite !attr_insert.
  rewrite decide_True by done.
  rewrite (decide_False (P := "email_confirmation_otp" = "email_confirmation_otp_expires")) by done.
  rewrite decide_True by done. split.
  - intros (Hid & [= ->] & e & [= <-] & Hlt). done.
  - intros (Hid & -> & Hlt). split; [done|]. split; [done|]. eauto.
Qed.

Lemma verifyEmailOTP_Ok_iff now userId otp (t : Table) :
  (exists u t', verifyEmailOTP now userId otp t = (Ok u, t')) <->
  (exists r, In r t /\ otp_valid now userId otp r).
Proof.
  rewrite verifyEmailOTP_unfold.
  destruct (List.find _ t) as [r|] eqn:Hfind.
  - pose proof (find_some _ _ Hfind) as [Hin Hr%matches_otp].
    split; [intros _; by exists r|intros _; eauto].
  - split; [by intros (u & t' & [=])|].
    intros (r & Hin & Hr%matches_otp).
    by rewrite (find_none _ _ Hfind r Hin) in Hr.
Qed.

Lemma verifyEmailOTP_none_valid now userId otp (t : Table) :
  (forall r, In r t -> ~ otp_valid now userId otp r) ->
  verifyEmailOTP now userId otp t = (Err invalid_or_expired, t).
Proof.
  intros Hnone. rewrite verifyEmailOTP_unfold, find_all_false; [done|].
  intros r Hr. apply not_true_is_false. intros H%matches_otp. by apply (Hnone r).
Qed.

Lemma updateUserOTP_Ok send now userId (t : Table) user t' :
  updateUserOTP send now userId t = (Ok user, t') ->
  In user t /\ attr user "id" = VInt userId /\
  exists otp, send (attr user "email") (attr user "id") = Ok otp /\
    t' = List.map (fun r => if bool_decide (attr r "id" = VInt userId)
                            then issue otp now r else r) t.
Proof.
  rewrite updateUserOTP_unfold.
  destruct (List.find _ t) as [u|] eqn:Hfind; [|discriminate].
  apply find_some in Hfind as [Hin Hid%matches_id].
  destruct (send _ _) as [otp|e] eqn:Hsend; [|discriminate].
  intros [= <- <-]. eauto.
Qed.

Lemma createUser_Ok send required createdAt now (userData : Row) (t : Table) user t' :
  createUser send required createdAt now userData t = (Ok user, t') ->
  accepted required userData t /\
  user = created_row createdAt userData t /\
  exists otp, send (attr user "email") (attr user "id") = Ok otp /\
    t' = (t ++ [issue otp now user])%list.
Proof.
  rewrite createUser_unfold.
  destruct (List.find _ required) eqn:Hreq; [discriminate|].
  destruct (UserModel.email_taken _ t) eqn:Hmail; [discriminate|]. cbv zeta.
  destruct (send _ _) as [otp|e] eqn:Hsend; [|discriminate].
  intros [= <- <-]. split; [|eauto]. split; [by apply find_required_None|done].
Qed.

(** X1: after [updateUserOTP] returned, the code the dispatcher gave verifies
    the user exactly while the clock is before [now + 900 s]. *)
Theorem resend_then_verify send now userId (t : Table) user t' :
  updateUserOTP send now userId t = (Ok user, t') ->
  exists otp,
    send (attr user "email") (attr user "id") = Ok otp /\
    forall now',
      (exists u t'', verifyEmailOTP now' userId otp t' = (Ok u, t'')) <->
      (now' < now + 900 * 1000)%Z.
Proof.
  intros (Hin & Hid & otp & Hsend & ->)%updateUserOTP_Ok.
  exists otp. split; [done|]. intros now'. rewrite verifyEmailOTP_Ok_iff. split.
  - intros (r' & (r & <- & Hr)%in_map_iff & Hvalid).
    case_bool_decide as Hrid.
    + by apply otp_valid_issue in Hvalid as (_ & _ & ?).
    + by destruct Hvalid as (? & _).
  - intros Hlt. exists (issue otp now user). split.
    + apply in_map_iff. exists user. by rewrite bool_decide_eq_true_2.
    + by apply otp_valid_issue.
Qed.

(** X2: a resent code replaces the pending one: once [updateUserOTP]
    returned, no other code verifies the user, at any time. *)
Theorem resend_invalidates_previous send now userId (t : Table) user t' :
  updateUserOTP send now userId t = (Ok user, t') ->
  forall otp, send (attr user "email") (attr user "id") = Ok otp ->
  forall now' otp', otp' <> otp ->
    verifyEmailOTP now' userId otp' t' = (Err invalid_or_expired, t').
Proof.
  intros (Hin & Hid & otp0 & Hsend & ->)%updateUserOTP_Ok otp Hotp now' otp' Hne.
  assert (otp0 = otp) as -> by congruence.
  apply verifyEmailOTP_none_valid.
  intros r' (r & <- & Hr)%in_map_iff Hvalid. case_bool_decide as Hrid.
  - by apply otp_valid_issue in Hvalid as (_ & ? & _).
  - by destruct Hvalid as (? & _).
Qed.

(** X3: when the dispatcher fails for an existing user, [updateUserOTP]
    fails with the dispatcher's error and the table, the pending code
    included, stays as it was. *)
Theorem updateUserOTP_dispatch_failure send now userId (t : Table) r :
  In r t -> attr r "id" = VInt userId ->
  exists user, In user t /\ attr user "id" = VInt userId /\
    forall e, send (attr user "email") (attr user "id") = Err e ->
      updateUserOTP send now userId t = (Err e, t).
Proof.
  intros Hin Hid. rewrite updateUserOTP_unfold.
  destruct (find_is_Some (matches [CEq "id" (VInt userId)]) t r Hin) as [user Hu].
  { by apply matches_id. }
  rewrite Hu. apply find_some in Hu as [Huin Huid%matches_id].
  exists user. split; [done|]. split; [done|]. intros e He. by rewrite He.
Qed.

Lemma find_app_skip {A : Type} (f : A -> bool) (l1 l2 : list A) :
  (forall x, In x l1 -> f x = false) ->
  List.find f (l1 ++ l2) = List.find f l2.
Proof.
  induction l1 as [|x l1 IH]; intros H; [done|]. cbn [app List.find].
  rewrite (H x (or_introl eq_refl)). apply IH. intros y Hy. apply H. by right.
Qed.

Lemma created_row_id createdAt (userData : Row) (t : Table) :
  attr (created_row createdAt userData t) "id" = VInt (UserModel.fresh_id t).
Proof. by rewrite created_row_attr. Qed.

Lemma created_row_email createdAt (userData : Row) (t : Table) :
  attr (created_row createdAt userData t) "email" = attr userData "email".
Proof.
  rewrite created_row_attr, known_lookup.
  rewrite decide_False by done. rewrite decide_False by done.
  change (UserModel.is_attribute "email") with true. cbv iota.
  unfold attr. by destruct (userData !! "email").
Qed.

Lemma attr_issue_other otp now (r : Row) a :
  a <> "email_confirmation_otp" -> a <> "email_confirmation_otp_expires" ->
  attr (issue otp now r) a = attr r a.
Proof.
  intros H1 H2. unfold issue. rewrite !attr_insert.
  rewrite decide_False by done. by rewrite decide_False by done.
Qed.

Lemma email_not_taken (e : string) (t : Table) (r : Row) :
  UserModel.email_taken (VStr e) t = false -> In r t -> attr r "email" <> VStr e.
Proof.
  unfold UserModel.email_taken. cbn [is_null negb andb]. intros Hex Hin Heq.
  assert (existsb (fun r => bool_decide (attr r "email" = VStr e)) t = true) as Ht.
  { apply existsb_exists. exists r. split; [done|]. by apply bool_decide_eq_true. }
  congruence.
Qed.

Lemma email_taken_member (v : Value) (t : Table) (r : Row) :
  v <> VNull -> In r t -> attr r "email" = v -> UserModel.email_taken v t = true.
Proof.
  intros Hv Hin Heq. unfold UserModel.email_taken. apply andb_true_iff. split.
  - by destruct v.
  - apply existsb_exists. exists r. split; [done|]. by apply bool_decide_eq_true.
Qed.

Lemma find_id_fresh (t : Table) (row : Row) :
  attr row "id" = VInt (UserModel.fresh_id t) ->
  List.find (matches [CEq "id" (VInt (UserModel.fresh_id t))]) (t ++ [row])
  = Some row.
Proof.
  intros Hid. rewrite find_app_skip.
  - cbn [List.find]. by rewrite (proj2 (matches_id _ _) Hid).
  - intros r Hr. apply not_true_is_false. intros H%matches_id.
    by apply (fresh_id_fresh t r).
Qed.

(** X4: the code a registration was given verifies the new user exactly
    while the clock is before [now + 900 s]. *)
Theorem register_then_verify send required createdAt now (userData : Row)
    (t : Table) user t' :
  createUser send required createdAt now userData t = (Ok user, t') ->
  exists otp,
    send (attr user "email") (attr user "id") = Ok otp /\
    attr user "id" = VInt (UserModel.fresh_id t) /\
    forall now',
      (exists u t'', verifyEmailOTP now' (UserModel.fresh_id t) otp t' = (Ok u, t'')) <->
      (now' < now + 900 * 1000)%Z.
Proof.
  intros (_ & -> & otp & Hsend & ->)%createUser_Ok.
  exists otp. split; [done|]. split; [apply created_row_id|].
  intros now'. rewrite verifyEmailOTP_Ok_iff. split.
  - intros (r & [Hr|[<-|[]]]%in_app_or & Hvalid).
    + destruct Hvalid as (Hid & _). by apply fresh_id_fresh in Hid.
    + by apply otp_valid_issue in Hvalid as (_ & _ & ?).
  - intros Hlt. eexists. split; [apply in_or_app; right; by left|].
    apply otp_valid_issue. split; [apply created_row_id|done].
Qed.

(** X5: the user [createUser] returns is the row as it was created; the code
    is on the stored row, which is what a lookup by the new id or by the
    registered email finds. *)
Theorem createUser_read_back send required createdAt now (userData : Row)
    (t : Table) user t' :
  createUser send required createdAt now userData t = (Ok user, t') ->
  exists otp stored,
    send (attr user "email") (attr user "id") = Ok otp /\
    getUserById (UserModel.fresh_id t) t' = (Ok (Some stored), t') /\
    attr stored "email_confirmation_otp" = VStr otp /\
    (userData !! "email_confirmation_otp" = None ->
     attr user "email_confirmation_otp" = VNull) /\
    (forall e, attr userData "email" = VStr e ->
     getUserByEmail e t' = (Ok (Some stored), t')).
Proof.
  intros ([_ Hmail] & -> & otp & Hsend & ->)%createUser_Ok.
  exists otp, (issue otp now (created_row createdAt userData t)).
  split; [done|]. split; [|split; [|split]].
  - unfold getUserById, UserModel.findByPk, UserModel.findOne, read.
    rewrite find_id_fresh; [done|]. by rewrite attr_issue_id, created_row_id.
  - unfold issue. rewrite attr_insert. by rewrite decide_True.
  - intros Hnone. rewrite created_row_attr, known_lookup, Hnone.
    rewrite decide_False by done. rewrite decide_False by done.
    by destruct (UserModel.is_attribute _).
  - intros e He. rewrite He in Hmail.
    unfold getUserByEmail, UserModel.findOne, read. rewrite find_app_skip.
    + cbn [List.find matches forallb holds].
      rewrite attr_issue_other, created_row_email, He by done.
      cbn [sql_eq]. by rewrite bool_decide_eq_true_2.
    + intros r Hr. apply not_true_is_false.
      unfold matches. cbn [forallb holds]. rewrite andb_true_r, sql_eq_VStr.
      by apply (email_not_taken e t).
Qed.

(** X6: when the dispatcher fails during a registration, [createUser] fails
    with the dispatcher's error but the row it created stays in the table,
    under the new id and without the code fields it was not given. *)
Theorem createUser_dispatch_failure send required createdAt now (userData : Row)
    (t : Table) e :
  accepted required userData t ->
  send (attr userData "email") (VInt (UserModel.fresh_id t)) = Err e ->
  let user := created_row createdAt userData t in
  createUser send required createdAt now userData t = (Err e, (t ++ [user])%list) /\
  getUserById (UserModel.fresh_id t) (t ++ [user])%list = (Ok (Some user), (t ++ [user])%list) /\
  (userData !! "email_confirmation_otp" = None ->
   forall now' otp,
     verifyEmailOTP now' (UserModel.fresh_id t) otp (t ++ [user])%list
       = (Err invalid_or_expired, (t ++ [user])%list)).
Proof.
  intros [Hreq Hmail] Hsend user. subst user. split; [|split].
  - rewrite createUser_unfold. rewrite (proj2 (find_required_None _ _) Hreq), Hmail.
    cbv zeta. by rewrite created_row_id, created_row_email, Hsend.
  - unfold getUserById, UserModel.findByPk, UserModel.findOne, read.
    rewrite find_id_fresh; [done|]. apply created_row_id.
  - intros Hnone now' otp. apply verifyEmailOTP_none_valid.
    intros r [Hr|[<-|[]]]%in_app_or (Hid & Hotp & _).
    + by apply fresh_id_fresh in Hid.
    + rewrite created_row_attr, known_lookup, Hnone in Hotp.
      rewrite decide_False in Hotp by done. rewrite decide_False in Hotp by done.
      by destruct (UserModel.is_attribute _).
Qed.

(** X7: once the data store accepted a registration, the email is taken
    whether or not the code could be sent: a second [createUser] or
    [createGoogleUser] with that email fails with the uniqueness violation
    and writes nothing. *)
Theorem createUser_email_then_taken send required createdAt now (userData : Row)
    (t : Table) :
  accepted required userData t ->
  attr userData "email" <> VNull ->
  let t' := (createUser send required createdAt now userData t).2 in
  forall send' createdAt' now' (userData' : Row),
    attr userData' "email" = attr userData "email" ->
    (forall a, In a required -> attr userData' a <> VNull) ->
    createUser send' required createdAt' now' userData' t'
      = (Err (UniqueConstraintError "email"), t') /\
    createGoogleUser required createdAt' userData' t'
      = (Err (UniqueConstraintError "email"), t').
Proof.
  intros [Hreq Hmail] Hnonnull t' send' createdAt' now' userData' Hsame Hreq'.
  assert (Htaken : UserModel.email_taken (attr userData "email") t' = true).
  { subst t'. rewrite createUser_unfold.
    rewrite (proj2 (find_required_None _ _) Hreq), Hmail. cbv zeta.
    destruct (send _ _) as [otp|e]; cbn [snd].
    - eapply email_taken_member; [done|apply in_or_app; right; by left|].
      by rewrite attr_issue_other, created_row_email.
    - eapply email_taken_member; [done|apply in_or_app; right; by left|].
      apply created_row_email. }
  split.
  - rewrite createUser_unfold, (proj2 (find_required_None _ _) Hreq').
    by rewrite Hsame, Htaken.
  - unfold createGoogleUser, UserModel.create.
    rewrite (proj2 (find_required_None _ _)).
    + rewrite attr_insert, decide_False by done. by rewrite Hsame, Htaken.
    + intros a Ha. rewrite attr_insert. case_decide; [done|]. by apply Hreq'.
Qed.

(** ** createGoogleUser *)

(** X8: a federated account is created confirmed whatever userData says
    about [email_confirmed]; the returned user is the stored row, under the
    generated id, and it carries no code unless userData names one. *)
Theorem createGoogleUser_confirmed required createdAt (userData : Row) (t : Table) :
  accepted required userData t ->
  exists user,
    createGoogleUser required createdAt userData t = (Ok user, (t ++ [user])%list) /\
    attr user "id" = VInt (UserModel.fresh_id t) /\
    attr user "email_confirmed" = VBool true /\
    (userData !! "email_confirmation_otp" = None ->
     attr user "email_confirmation_otp" = VNull) /\
    (userData !! "email_confirmation_otp_expires" = None ->
     attr user "email_confirmation_otp_expires" = VNull).
Proof.
  intros [Hreq Hmail].
  exists (created_row createdAt (<[ "email_confirmed" := VBool true ]> userData) t).
  split; [|split; [|split; [|split]]].
  - unfold createGoogleUser. apply create_accepted. split.
    + intros a Ha. rewrite attr_insert. case_decide; [done|]. by apply Hreq.
    + by rewrite attr_insert, decide_False.
  - apply created_row_id.
  - rewrite created_row_attr, known_lookup, lookup_insert.
    rewrite decide_False by done. rewrite decide_False by done.
    by rewrite decide_True.
  - intros Hnone. rewrite created_row_attr, known_lookup, lookup_insert, Hnone.
    rewrite decide_False by done. rewrite decide_False by done.
    rewrite decide_False by done. by destruct (UserModel.is_attribute _).
  - intros Hnone. rewrite created_row_attr, known_lookup, lookup_insert, Hnone.
    rewrite decide_False by done. rewrite decide_False by done.
    rewrite decide_False by done. by destruct (UserModel.is_attribute _).
Qed.

(** ** deleteUser, further *)

Lemma matches_id_bool (id : Z) (r : Row) :
  matches [CEq "id" (VInt id)] r = bool_decide (attr r "id" = VInt id).
Proof. unfold matches. cbn [forallb holds sql_eq]. apply andb_true_r. Qed.

(** X9: [deleteUser] removes exactly the rows with the id and reports their
    number; afterwards the id is not found and a second [deleteUser] reports
    zero and changes nothing. *)
Theorem deleteUser_removes (id : Z) (t : Table) :
  exists n t',
    deleteUser id t = (Ok n, t') /\
    n = length (List.filter (fun r => bool_decide (attr r "id" = VInt id)) t) /\
    (n + length t' = length t)%nat /\
    (forall r, In r t' <-> In r t /\ attr r "id" <> VInt id) /\
    getUserById id t' = (Ok None, t') /\
    deleteUser id t' = (Ok 0%nat, t').
Proof.
  unfold deleteUser, UserModel.destroy. eexists _, _. split; [reflexivity|].
  assert (Hin : forall r,
            In r (List.filter (fun r => negb (matches [CEq "id" (VInt id)] r)) t)
            <-> In r t /\ attr r "id" <> VInt id).
  { intros r. rewrite filter_In, negb_true_iff, matches_id_bool, bool_decide_eq_false.
    tauto. }
  assert (Hnone : forall r,
            In r (List.filter (fun r => negb (matches [CEq "id" (VInt id)] r)) t) ->
            matches [CEq "id" (VInt id)] r = false).
  { intros r [_ Hr]%Hin. by rewrite matches_id_bool, bool_decide_eq_false. }
  split; [|split; [|split; [|split]]].
  - f_equal. apply filter_ext. intros r. apply matches_id_bool.
  - apply filter_length.
  - exact Hin.
  - unfold getUserById, UserModel.findByPk, UserModel.findOne, read.
    by rewrite find_all_false.
  - rewrite filter_none by done. rewrite filter_all; [done|].
    intros r Hr. by rewrite Hnone.
Qed.

(** ** updateUser *)











(** ** Lookups for authentication *)

Lemma matches_auth (identifier : string) (r : Row) :
  matches [COr [CEq "email" (VStr identifier); CEq "google_id" (VStr identifier)]] r
    = true <->
  attr r "email" = VStr identifier \/ attr r "google_id" = VStr identifier.
Proof.
  unfold matches. cbn [forallb holds existsb].
  rewrite andb_true_r, !orb_true_iff, !sql_eq_VStr. split; [|tauto].
  intros [?|[?|?]]; auto. discriminate.
Qed.

(** X13: [findUserForAuth] finds a user exactly when the identifier is some
    row's email or some row's google id; the user found is such a row; it
    finds nothing exactly when both [getUserByEmail] and
    [getUserByGoogleId] find nothing; and it never writes. *)
Theorem findUserForAuth_spec (identifier : string) (t : Table) :
  exists found,
    findUserForAuth identifier t = (Ok found, t) /\
    (forall r, found = Some r ->
       In r t /\
       (attr r "email" = VStr identifier \/ attr r "google_id" = VStr identifier)) /\
    (found = None <->
       forall r, In r t ->
         attr r "email" <> VStr identifier /\ attr r "google_id" <> VStr identifier) /\
    (found = None <->
       getUserByEmail identifier t = (Ok None, t) /\
       getUserByGoogleId identifier t = (Ok None, t)).
Proof.
  unfold findUserForAuth, getUserByEmail, getUserByGoogleId, UserModel.findOne, read.
  eexists. split; [reflexivity|].
  assert (Hnone : forall w : list Cond,
            List.find (matches w) t = None <->
            forall r, In r t -> matches w r = false).
  { intros w. split; [apply find_none|apply find_all_false]. }
  assert (Hone : forall a (r : Row),
            matches [CEq a (VStr identifier)] r = false <->
            attr r a <> VStr identifier).
  { intros a r. unfold matches. cbn [forallb holds sql_eq].
    by rewrite andb_true_r, bool_decide_eq_false. }
  assert (Hauth : forall r : Row,
            matches [COr [CEq "email" (VStr identifier);
                          CEq "google_id" (VStr identifier)]] r = false <->
            attr r "email" <> VStr identifier /\ attr r "google_id" <> VStr identifier).
  { intros r. rewrite <- not_true_iff_false, matches_auth. tauto. }
  split; [|split].
  - intros r [Hin Hm%matches_auth]%find_some. done.
  - rewrite Hnone. split; intros H r Hr; apply Hauth; by apply H.
  - rewrite Hnone. split.
    + intros H. split; f_equal; f_equal; apply Hnone; intros r Hr; apply Hone;
        by apply Hauth, H.
    + intros [[= He] [= Hg]] r Hr. apply Hauth. split; apply Hone.
      * by apply (proj1 (Hnone _) He).
      * by apply (proj1 (Hnone _) Hg).
Qed.

(** ** Pages of a listing *)

Lemma where_of_ext (q q' : ListQuery) :
  search q = search q' -> role q = role q' -> where_of q = where_of q'.
Proof. intros Hs Hr. unfold where_of. by rewrite Hs, Hr. Qed.

Lemma page_length (q : ListQuery) (t : Table) :
  length (page q t) =
  Nat.min (Z.to_nat (parseInt (limit q)))
          (length (List.filter (matches (where_of q)) t)
           - Z.to_nat (parseInt (offset q))).
Proof.
  unfold page. rewrite length_map, length_take, length_drop.
  by rewrite selected_Permutation.
Qed.

(** X14: a listing holds [min limit (totalCount - offset)] rows: never more
    than [limit], none from [offset = totalCount] on; and with a numeric
    offset a cursor that is not null comes with a full page. *)
Theorem getAllUsers_page_size (q : ListQuery) (t : Table) l t' :
  getAllUsers q t = (Ok l, t') ->
  length (users l) =
    Nat.min (Z.to_nat (parseInt (limit q)))
            (totalCount l - Z.to_nat (parseInt (offset q))) /\
  (Z.of_nat (length (users l)) <= parseInt (limit q))%Z /\
  ((Z.of_nat (totalCount l) <= parseInt (offset q))%Z -> users l = []) /\
  (forall o, offset q = Number o -> nextOffset l <> None ->
     Z.of_nat (length (users l)) = parseInt (limit q)).
Proof.
  intros (_ & Ho & Hl & Hu & Hcount & Hnext)%getAllUsers_Ok.
  assert (Hlen : length (users l) =
                 Nat.min (Z.to_nat (parseInt (limit q)))
                         (totalCount l - Z.to_nat (parseInt (offset q)))).
  { by rewrite Hu, Hcount, page_length. }
  split; [exact Hlen|]. split; [lia|]. split.
  - intros Hge. apply length_zero_iff_nil. lia.
  - intros o Hoff. rewrite Hnext, Hoff. rewrite Hoff in Hlen, Ho.
    cbn [js_add js_lt parseInt] in *. rewrite nat_N_Z.
    destruct (Z.ltb_spec (o + Z.of_nat (length (users l))) (Z.of_nat (totalCount l)));
      [intros _; lia|done].
Qed.

Lemma NoDup_map_inj {A B : Type} (f : A -> B) (l : list A) x y :
  NoDup (List.map f l) -> x ∈ l -> y ∈ l -> f x = f y -> x = y.
Proof.
  induction l as [|a l IH]; cbn [List.map].
  - by intros _ ?%elem_of_nil.
  - intros [Hnotin Hnodup]%NoDup_cons [->|Hx]%elem_of_cons [->|Hy]%elem_of_cons Hf;
      [done| | |by apply IH].
    + exfalso. apply Hnotin. rewrite Hf.
      by apply (list_elem_of_fmap_2 f l y).
    + exfalso. apply Hnotin. rewrite <- Hf.
      by apply (list_elem_of_fmap_2 f l x).
Qed.

(** With pairwise different keys there is one newest-first arrangement of
    the rows: the order of the rows does not depend on how ties are
    broken, there being none. *)
Lemma newest_first_unique (l1 l2 : Table) :
  NoDup (List.map (fun r => order_key (attr r "created_at")) l1) ->
  StronglySorted (before_desc "created_at") l1 ->
  StronglySorted (before_desc "created_at") l2 ->
  l1 ≡ₚ l2 -> l1 = l2.
Proof.
  intros Hnodup Hs1 Hs2 Hperm.
  apply (StronglySorted_unique_strong (before_desc "created_at")); try done.
  intros x1 x2 Hx1 Hx2 H12 H21.
  apply (NoDup_map_inj _ l1 x1 x2 Hnodup Hx1); [by rewrite Hperm|].
  unfold before_desc, desc_leb in H12, H21.
  destruct (order_key (attr x1 "created_at")) as [k1|],
           (order_key (attr x2 "created_at")) as [k2|]; try done.
  apply Z.leb_le in H12, H21. f_equal. lia.
Qed.

(** X15: pages tile the selection. When the selected rows have pairwise
    different [created_at] and the three listings succeed, the page of
    [limit1] rows at [offset] followed by the page of [limit2] rows at
    [offset + limit1] is the page of [limit1 + limit2] rows at [offset], all
    three report the same total, and the combined page is that slice of
    every newest-first arrangement of the selected rows. *)
Theorem getAllUsers_pages_tile (q1 q2 q : ListQuery) (t : Table) l1 l2 l t1 t2 t3 :
  search q2 = search q1 -> role q2 = role q1 ->
  search q = search q1 -> role q = role q1 ->
  parseInt (offset q2) = (parseInt (offset q1) + parseInt (limit q1))%Z ->
  parseInt (offset q) = parseInt (offset q1) ->
  parseInt (limit q) = (parseInt (limit q1) + parseInt (limit q2))%Z ->
  NoDup (List.map (fun r => order_key (attr r "created_at"))
           (List.filter (matches (where_of q1)) t)) ->
  getAllUsers q1 t = (Ok l1, t1) ->
  getAllUsers q2 t = (Ok l2, t2) ->
  getAllUsers q t = (Ok l, t3) ->
  users l = (users l1 ++ users l2)%list /\
  totalCount l = totalCount l1 /\ totalCount l2 = totalCount l1 /\
  (forall sel : Table,
     sel ≡ₚ List.filter (matches (where_of q1)) t ->
     StronglySorted (before_desc "created_at") sel ->
     users l = List.map (omit sensitive)
                 (take (Z.to_nat (parseInt (limit q)))
                    (drop (Z.to_nat (parseInt (offset q))) sel))).
Proof.
  intros Hs2 Hr2 Hs Hr Hoff2 Hoff Hlim Hnodup
    (_ & Ho1 & Hl1 & Hu1 & Hc1 & _)%getAllUsers_Ok
    (_ & Ho2 & Hl2 & Hu2 & Hc2 & _)%getAllUsers_Ok
    (_ & Ho & Hl & Hu & Hc & _)%getAllUsers_Ok.
  split; [|split; [|split]].
  - rewrite Hu, Hu1, Hu2. unfold page, selected.
    rewrite (where_of_ext q2 q1), (where_of_ext q q1) by done.
    rewrite Hoff2, Hoff, Hlim, !Z2Nat.inj_add by lia.
    rewrite <- map_app. f_equal.
    rewrite <- take_take_drop. f_equal. by rewrite drop_drop.
  - by rewrite Hc, Hc1, (where_of_ext q q1).
  - by rewrite Hc1, Hc2, (where_of_ext q2 q1).
  - intros sel Hperm Hsorted. rewrite Hu. unfold page.
    assert (Hsel : selected q t = sel); [|by rewrite Hsel].
    unfold selected. rewrite (where_of_ext q q1) by done.
    apply newest_first_unique.
    + assert (Hkeys : List.map (fun r => order_key (attr r "created_at"))
                        (order_desc "created_at"
                           (List.filter (matches (where_of q1)) t))
                      ≡ₚ List.map (fun r => order_key (attr r "created_at"))
                           (List.filter (matches (where_of q1)) t)).
      { apply Permutation_map, (selected_Permutation q1 t). }
      by rewrite Hkeys.
    + apply (selected_sorted q1 t).
    + exact Hsorted.
    + rewrite Hperm. apply (selected_Permutation q1 t).
Qed.

Lemma list_ascii_of_string_nil (s : string) :
  list_ascii_of_string s = [] <-> s = "".
Proof. by destruct s. Qed.

Lemma lower_nil (l : list ascii) : lower l = [] <-> l = [].
Proof. by destruct l. Qed.

(** X16: the search does not depend on the letter case of the term: two
    terms that differ only in the case of their letters give the same
    result. *)
Theorem getAllUsers_term_case (lim off : Num) (term term' : string) (rl : Value)
    (t : Table) :
  lower (list_ascii_of_string term) = lower (list_ascii_of_string term') ->
  getAllUsers {| limit := lim; offset := off; search := term; role := rl |} t
  = getAllUsers {| limit := lim; offset := off; search := term'; role := rl |} t.
Proof.
  intros Hlow.
  set (q := {| limit := lim; offset := off; search := term; role := rl |}).
  set (q' := {| limit := lim; offset := off; search := term'; role := rl |}).
  assert (Hempty : String.eqb term "" = String.eqb term' "").
  { destruct (String.eqb_spec term ""), (String.eqb_spec term' ""); try done; subst.
    - symmetry in Hlow. apply lower_nil, list_ascii_of_string_nil in Hlow. done.
    - apply lower_nil, list_ascii_of_string_nil in Hlow. done. }
  assert (Hlike : forall x, sql_ilike x (pattern_of term) = sql_ilike x (pattern_of term')).
  { intros x. destruct x; try done. cbn [sql_ilike]. by rewrite !lower_pattern, Hlow. }
  assert (Hfilter : List.filter (matches (where_of q)) t
                    = List.filter (matches (where_of q')) t).
  { apply filter_ext. intros r. unfold where_of, q, q'. cbn [search role truthy].
    rewrite Hempty. destruct (negb _); [|done].
    unfold matches. rewrite !forallb_app. cbn [forallb holds existsb].
    fold (pattern_of term) (pattern_of term'). by rewrite !Hlike. }
  assert (Hpage : page q t = page q' t).
  { unfold page, selected. by rewrite Hfilter. }
  rewrite !getAllUsers_unfold. by rewrite Hpage, Hfilter.
Qed.

(** ** Identifiers stay unique *)

Lemma ids_map_stable (f : Row -> Row) (t : Table) :
  (forall r, attr (f r) "id" = attr r "id") ->
  List.map (fun r => attr r "id") (List.map f t) = List.map (fun r => attr r "id") t.
Proof. intros H. rewrite map_map. apply map_ext. intros r. apply H. Qed.

Lemma unique_ids_filter (p : Row -> bool) (t : Table) :
  unique_ids t -> unique_ids (List.filter p t).
Proof.
  unfold unique_ids. induction t as [|r t IH]; [done|]. cbn [List.map List.filter].
  intros [Hnotin Hnodup]%NoDup_cons. destruct (p r); [|auto].
  cbn [List.map]. apply NoDup_cons. split; [|auto].
  intros (x & Hx & [Hxin _]%filter_In)%list_elem_of_In%in_map_iff.
  apply Hnotin, list_elem_of_In, in_map_iff. eauto.
Qed.

Lemma unique_ids_snoc (t : Table) (row : Row) :
  attr row "id" = VInt (UserModel.fresh_id t) ->
  unique_ids t -> unique_ids (t ++ [row]).
Proof.
  unfold unique_ids. intros Hid Hnodup. rewrite map_app. cbn [List.map].
  apply NoDup_app. split; [done|]. split; [|apply NoDup_singleton].
  intros v (r & <- & Hr)%list_elem_of_In%in_map_iff Hv%list_elem_of_singleton.
  rewrite Hid in Hv. by apply (fresh_id_fresh t r).
Qed.

(** X17: if no two rows share an id, that is still so after [createUser],
    [createGoogleUser], [updateUserOTP], [verifyEmailOTP], [deleteUser] and
    [revokeRefreshToken], whatever they return, and after [updateUser] with
    userData that does not name [id]. *)
Theorem unique_ids_preserved send required (t : Table) :
  unique_ids t ->
  (forall createdAt now userData,
     unique_ids (createUser send required createdAt now userData t).2) /\
  (forall createdAt userData,
     unique_ids (createGoogleUser required createdAt userData t).2) /\
  (forall now userId, unique_ids (updateUserOTP send now userId t).2) /\
  (forall now userId otp, unique_ids (verifyEmailOTP now userId otp t).2) /\
  (forall id, unique_ids (deleteUser id t).2) /\
  (forall userId, unique_ids (revokeRefreshToken userId t).2) /\
  (forall id userData,
     userData !! "id" = None -> unique_ids (updateUser id userData t).2).
Proof.
  intros Huniq. repeat split.
  - intros createdAt now userData. rewrite createUser_unfold.
    destruct (List.find _ required); [done|].
    destruct (UserModel.email_taken _ t); [done|]. cbv zeta.
    destruct (send _ _); cbn [snd]; apply unique_ids_snoc; try done.
    + by rewrite attr_issue_id, created_row_id.
    + apply created_row_id.
  - intros createdAt userData. unfold createGoogleUser, UserModel.create.
    destruct (List.find _ required); [done|].
    destruct (UserModel.email_taken _ t); [done|]. cbn [snd].
    apply unique_ids_snoc; [|done]. apply created_row_id.
  - intros now userId. rewrite updateUserOTP_unfold.
    destruct (List.find _ t); [|done]. destruct (send _ _); [|done]. cbn [snd].
    unfold unique_ids. rewrite ids_map_stable; [done|].
    intros r. case_bool_decide; [apply attr_issue_id|done].
  - intros now userId otp. rewrite verifyEmailOTP_unfold.
    destruct (List.find _ t); [|done]. cbn [snd].
    unfold unique_ids. rewrite ids_map_stable; [done|].
    intros r. case_bool_decide; [apply attr_confirm_id|done].
  - intros id. unfold deleteUser, UserModel.destroy. cbn [snd].
    by apply unique_ids_filter.
  - intros userId. by rewrite revokeRefreshToken_writes_nothing.
  - intros id userData Hnoid. rewrite updateUser_table.
    destruct (update_table_cases userData [CEq "id" (VInt id)] t) as [->| ->];
      [done|].
    unfold unique_ids. rewrite ids_map_stable; [done|].
    intros r. destruct (matches _ r); [|done].
    rewrite attr_union, known_lookup, Hnoid.
    by destruct (UserModel.is_attribute "id").
Qed.

(** ** Further worked instances on the sample table *)

Lemma sample_find_alice :
  List.find (matches [CEq "id" (VInt 1)]) sample_table = Some alice.
Proof.
  unfold sample_table. cbn [List.find].
  by replace (matches [CEq "id" (VInt 1)] alice) with true by (by vm_compute).
Qed.

Lemma sample_resend :
  updateUserOTP (send_fixed "123456") 100 1 sample_table
  = (Ok alice,
     List.map (fun r => if bool_decide (attr r "id" = VInt 1)
                        then issue "123456" 100 r else r) sample_table).
Proof. rewrite updateUserOTP_unfold, sample_find_alice. reflexivity. Qed.

Lemma sample_accepts_dave : accepted ["email"] dave_data sample_table.
Proof. split; [|by vm_compute]. intros a [<-|[]]. by vm_compute. Qed.

Lemma sample_register :
  createUser (send_fixed "123456") ["email"] 7 8 dave_data sample_table
  = (Ok (created_row 7 dave_data sample_table),
     (sample_table ++ [issue "123456" 8 (created_row 7 dave_data sample_table)])%list).
Proof.
  destruct sample_accepts_dave as [Hreq Hmail].
  rewrite createUser_unfold, (proj2 (find_required_None _ _) Hreq), Hmail.
  reflexivity.
Qed.

Lemma resend_then_verify_witness :
  exists otp,
    send_fixed "123456" (attr alice "email") (attr alice "id") = Ok otp /\
    forall now',
      (exists u t'',
         verifyEmailOTP now' 1 otp
           (List.map (fun r => if bool_decide (attr r "id" = VInt 1)
                               then issue "123456" 100 r else r) sample_table)
         = (Ok u, t'')) <->
      (now' < 100 + 900 * 1000)%Z.
Proof.
  exact (resend_then_verify (send_fixed "123456") 100 1 sample_table _ _ sample_resend).
Defined.

Lemma resend_invalidates_previous_witness :
  verifyEmailOTP 200 1 "111111"
    (List.map (fun r => if bool_decide (attr r "id" = VInt 1)
                        then issue "123456" 100 r else r) sample_table)
  = (Err invalid_or_expired,
     List.map (fun r => if bool_decide (attr r "id" = VInt 1)
                        then issue "123456" 100 r else r) sample_table).
Proof.
  apply (resend_invalidates_previous (send_fixed "123456") 100 1 sample_table _ _
           sample_resend "123456" eq_refl 200 "111111").
  discriminate.
Defined.

Lemma updateUserOTP_dispatch_failure_witness :
  exists user, In user sample_table /\ attr user "id" = VInt 1 /\
    updateUserOTP send_failing 100 1 sample_table
    = (Err (DispatchError "mail server unreachable"), sample_table).
Proof.
  destruct (updateUserOTP_dispatch_failure send_failing 100 1 sample_table alice
              (or_introl eq_refl) eq_refl) as (user & Hin & Hid & Hfail).
  exists user. split; [exact Hin|]. split; [exact Hid|]. by apply Hfail.
Defined.

Lemma register_then_verify_witness :
  exists otp,
    send_fixed "123456" (attr (created_row 7 dave_data sample_table) "email")
      (attr (created_row 7 dave_data sample_table) "id") = Ok otp /\
    attr (created_row 7 dave_data sample_table) "id"
      = VInt (UserModel.fresh_id sample_table) /\
    forall now',
      (exists u t'',
         verifyEmailOTP now' (UserModel.fresh_id sample_table) otp
           (sample_table ++ [issue "123456" 8 (created_row 7 dave_data sample_table)])%list
         = (Ok u, t'')) <->
      (now' < 8 + 900 * 1000)%Z.
Proof.
  exact (register_then_verify (send_fixed "123456") ["email"] 7 8 dave_data
           sample_table _ _ sample_register).
Defined.

Lemma createUser_read_back_witness :
  exists otp stored,
    send_fixed "123456" (attr (created_row 7 dave_data sample_table) "email")
      (attr (created_row 7 dave_data sample_table) "id") = Ok otp /\
    getUserById (UserModel.fresh_id sample_table)
      (sample_table ++ [issue "123456" 8 (created_row 7 dave_data sample_table)])%list
    = (Ok (Some stored),
       (sample_table ++ [issue "123456" 8 (created_row 7 dave_data sample_table)])%list) /\
    attr stored "email_confirmation_otp" = VStr otp /\
    attr (created_row 7 dave_data sample_table) "email_confirmation_otp" = VNull.
Proof.
  destruct (createUser_read_back (send_fixed "123456") ["email"] 7 8 dave_data
              sample_table _ _ sample_register)
    as (otp & stored & Hsend & Hid & Hotp & Hstale & _).
  exists otp, stored. split; [exact Hsend|]. split; [exact Hid|].
  split; [exact Hotp|]. by apply Hstale.
Defined.

Lemma createUser_dispatch_failure_witness :
  createUser send_failing ["email"] 7 8 dave_data sample_table
  = (Err (DispatchError "mail server unreachable"),
     (sample_table ++ [created_row 7 dave_data sample_table])%list).
Proof.
  exact (proj1 (createUser_dispatch_failure send_failing ["email"] 7 8 dave_data
                  sample_table _ sample_accepts_dave eq_refl)).
Defined.

Lemma createUser_email_then_taken_witness :
  createUser (send_fixed "654321") ["email"] 9 10 dave_data
    (createUser send_failing ["email"] 7 8 dave_data sample_table).2
  = (Err (UniqueConstraintError "email"),
     (createUser send_failing ["email"] 7 8 dave_data sample_table).2).
Proof.
  apply (createUser_email_then_taken send_failing ["email"] 7 8 dave_data sample_table
           sample_accepts_dave).
  - by vm_compute.
  - reflexivity.
  - intros a [<-|[]]. by vm_compute.
Defined.

Lemma createGoogleUser_confirmed_witness :
  exists user,
    createGoogleUser ["email"] 7
      (<[ "email_confirmed" := VBool false ]> dave_data) sample_table
    = (Ok user, (sample_table ++ [user])%list) /\
    attr user "email_confirmed" = VBool true.
Proof.
  assert (Hacc : accepted ["email"]
                   (<[ "email_confirmed" := VBool false ]> dave_data) sample_table).
  { split; [|by vm_compute]. intros a [<-|[]]. by vm_compute. }
  destruct (createGoogleUser_confirmed ["email"] 7 _ sample_table Hacc)
    as (user & Hrun & _ & Hconf & _).
  exists user. split; [exact Hrun|exact Hconf].
Defined.




Lemma getAllUsers_page_size_witness :
  let q := {| limit := Number 2; offset := Number 2; search := ""; role := VNull |} in
  getAllUsers q sample_table = (Ok (listing q sample_table), sample_table) /\
  length (users (listing q sample_table))
    = Nat.min 2 (totalCount (listing q sample_table) - 2).
Proof.
  intros q.
  assert (Hrun : getAllUsers q sample_table = (Ok (listing q sample_table), sample_table))
    by (by apply getAllUsers_run).
  split; [exact Hrun|].
  exact (proj1 (getAllUsers_page_size q sample_table _ _ Hrun)).
Defined.

Lemma getAllUsers_pages_tile_witness :
  let q1 := {| limit := Number 1; offset := Number 0; search := ""; role := VNull |} in
  let q2 := {| limit := Number 2; offset := Number 1; search := ""; role := VNull |} in
  let q := {| limit := Number 3; offset := Number 0; search := ""; role := VNull |} in
  users (listing q sample_table)
  = (users (listing q1 sample_table) ++ users (listing q2 sample_table))%list.
Proof.
  intros q1 q2 q.
  assert (H1 : getAllUsers q1 sample_table = (Ok (listing q1 sample_table), sample_table))
    by (by apply getAllUsers_run).
  assert (H2 : getAllUsers q2 sample_table = (Ok (listing q2 sample_table), sample_table))
    by (by apply getAllUsers_run).
  assert (H3 : getAllUsers q sample_table = (Ok (listing q sample_table), sample_table))
    by (by apply getAllUsers_run).
  assert (Hkeys : NoDup (List.map (fun r => order_key (attr r "created_at"))
                           (List.filter (matches (where_of q1)) sample_table))).
  { replace (List.map _ _) with [Some 10%Z; Some 20%Z; Some 30%Z] by (by vm_compute).
    apply (bool_decide_unpack _). by vm_compute. }
  exact (proj1 (getAllUsers_pages_tile q1 q2 q sample_table _ _ _ _ _ _
                  eq_refl eq_refl eq_refl eq_refl eq_refl eq_refl eq_refl
                  Hkeys H1 H2 H3)).
Defined.

Lemma getAllUsers_term_case_witness :
  getAllUsers {| limit := Number 10; offset := Number 0; search := "ALI"; role := VNull |}
    sample_table
  = getAllUsers {| limit := Number 10; offset := Number 0; search := "ali"; role := VNull |}
      sample_table.
Proof.
  apply (getAllUsers_term_case (Number 10) (Number 0) "ALI" "ali" VNull sample_table).
  reflexivity.
Defined.

Lemma sample_table_unique_ids : unique_ids sample_table.
Proof.
  unfold unique_ids, sample_table. cbn [List.map].
  replace (attr alice "id") with (VInt 1) by (by vm_compute).
  replace (attr bob "id") with (VInt 2) by (by vm_compute).
  replace (attr carol "id") with (VInt 3) by (by vm_compute).
  apply (bool_decide_unpack _). by vm_compute.
Qed.

Lemma unique_ids_preserved_witness :
  unique_ids sample_table /\
  unique_ids (createUser (send_fixed "123456") ["email"] 7 8 dave_data sample_table).2 /\
  unique_ids (deleteUser 2 sample_table).2 /\
  unique_ids (updateUser 1 dave_data sample_table).2.
Proof.
  destruct (unique_ids_preserved (send_fixed "123456") ["email"] sample_table
              sample_table_unique_ids)
    as (Hcreate & _ & _ & _ & Hdelete & _ & Hupdate).
  split; [exact sample_table_unique_ids|]. split; [apply Hcreate|].
  split; [apply Hdelete|]. apply Hupdate. by vm_compute.
Defined.

Lemma getAllUsers_nextOffset_number_witness :
  let q := {| limit := Number 2; offset := Number 0; search := ""; role := VNull |} in
  getAllUsers q sample_table = (Ok (listing q sample_table), sample_table) /\
  (0 + Z.of_nat (length (users (listing q sample_table)))
     < Z.of_nat (totalCount (listing q sample_table)))%Z /\
  nextOffset (listing q sample_table) = Some (0 + 2)%Z.
Proof.
  intros q.
  assert (Hrun : getAllUsers q sample_table = (Ok (listing q sample_table), sample_table))
    by (by apply getAllUsers_run).
  assert (Hlt : (0 + Z.of_nat (length (users (listing q sample_table)))
                 < Z.of_nat (totalCount (listing q sample_table)))%Z)
    by (by vm_compute).
  split; [exact Hrun|]. split; [exact Hlt|].
  exact (proj2 (getAllUsers_nextOffset_number (Number 2) 0 "" VNull sample_table _ _ Hrun)
           Hlt).
Defined.

(** * The greetings form: detection of the file kind *)

Module FormFacts.
Import GreetingsForm.

Lemma detect_unfold (f : File.t) :
  detectFileType f =
  if existsb (mime_matches f (fileExtension f))
       ["image/jpeg"; "image/png"; "image/gif"; "image/webp"; "image/tiff"; "image/bmp"]
  then Some image
  else if existsb (mime_matches f (fileExtension f))
            ["video/mp4"; "video/quicktime"; "video/x-msvideo"; "video/x-ms-wmv";
             "video/webm"; "video/3gpp"]
  then Some video
  else if existsb (mime_matches f (fileExtension f))
            ["audio/mpeg"; "audio/wav"; "audio/aac"; "audio/ogg"; "audio/webm";
             "audio/flac"]
  then Some audio
  else None.
Proof.
  unfold detectFileType, allowedTypes. cbn [List.find snd].
  destruct (existsb _ _); [done|]. destruct (existsb _ _); [done|].
  by destruct (existsb _ _).
Qed.

Lemma detect_Some_iff (f : File.t) :
  is_Some (detectFileType f) <->
  exists T mimes mime,
    In (T, mimes) allowedTypes /\ In mime mimes /\
    mime_matches f (fileExtension f) mime = true.
Proof.
  unfold detectFileType. split.
  - intros [T HT].
    destruct (List.find _ allowedTypes) as [[T' mimes]|] eqn:Hfind; [|done].
    apply find_some in Hfind as [Hin (mime & Hmime & Hm)%existsb_exists].
    exists T', mimes, mime. done.
  - intros (T & mimes & mime & Hin & Hmime & Hm).
    destruct (find_is_Some
                (fun entry : FileType * list string =>
                   existsb (mime_matches f (fileExtension f)) entry.2)
                allowedTypes (T, mimes) Hin) as [entry Hentry].
    { apply existsb_exists. by exists mime. }
    rewrite Hentry. by eexists.
Qed.

(** X19: a file whose MIME type begins with a listed MIME type is never
    rejected as unsupported, whatever its name; within the size limit
    [onDrop]'s filter keeps it; and when the listed type is an image type
    the file is an image. *)
Theorem detectFileType_listed_mime (f : File.t) T mimes mime :
  In (T, mimes) allowedTypes -> In mime mimes ->
  startsWith (list_ascii_of_string (File.type f)) (list_ascii_of_string mime) = true ->
  is_Some (detectFileType f) /\
  ((File.size f <= MAX_FILE_SIZE)%Z -> rejection f = None) /\
  (T = image -> detectFileType f = Some image).
Proof.
  intros Hin Hmime Hstart.
  assert (Hm : mime_matches f (fileExtension f) mime = true).
  { unfold mime_matches. by rewrite Hstart. }
  assert (Hsome : is_Some (detectFileType f)).
  { apply detect_Some_iff. by exists T, mimes, mime. }
  split; [done|]. split.
  - intros Hsize. unfold rejection.
    destruct (Z.ltb_spec MAX_FILE_SIZE (File.size f)); [lia|].
    by destruct Hsome as [T' ->].
  - intros ->. rewrite detect_unfold.
    assert (Himg : mimes = ["image/jpeg"; "image/png"; "image/gif"; "image/webp";
                            "image/tiff"; "image/bmp"]).
    { destruct Hin as [[= <-]|[[=]|[[=]|[]]]]. done. }
    subst mimes.
    replace (existsb _ _) with true; [done|].
    symmetry. apply existsb_exists. by exists mime.
Qed.

(** X20: a file named [*.webm] is never taken for audio: its extension ends
    the listed type [video/webm], which is tried before the audio types, so
    it is a video (or an image, if its MIME type says so) even when its MIME
    type is [audio/webm]. *)
Theorem detectFileType_webm (f : File.t) :
  fileExtension f = list_ascii_of_string "webm" ->
  (detectFileType f = Some image \/ detectFileType f = Some video) /\
  detectFileType f <> Some audio.
Proof.
  intros Hext. rewrite detect_unfold, Hext.
  destruct (existsb _ _); [split; [by left|done]|].
  replace (existsb _ _) with true; [split; [by right|done]|].
  symmetry. apply existsb_exists. exists "video/webm". split.
  - cbn. tauto.
  - unfold mime_matches. apply orb_true_iff. right. by vm_compute.
Qed.

Lemma unnamed_extensions_end_nothing :
  forallb (fun e =>
    forallb (fun entry : FileType * list string =>
      forallb (fun mime =>
        negb (endsWith (list_ascii_of_string mime) (list_ascii_of_string e)))
        entry.2) allowedTypes) unnamed_extensions = true.
Proof. by vm_compute. Qed.

(** Of the extensions the drop zone lets through, the six of
    [unnamed_extensions] are exactly those that end no listed MIME type. *)
Lemma accept_unnamed_extensions :
  forallb (fun entry : string * list string =>
    forallb (fun dotted =>
      match dotted with
      | String _ e =>
        Bool.eqb
          (existsb (String.eqb e) unnamed_extensions)
          (negb (existsb (fun kind : FileType * list string =>
                   existsb (fun mime =>
                     endsWith (list_ascii_of_string mime) (list_ascii_of_string e))
                     kind.2) allowedTypes))
      | EmptyString => false
      end) entry.2) accept = true /\
  forallb (fun e =>
    existsb (fun entry : string * list string =>
      existsb (String.eqb ("." +:+ e)) entry.2) accept) unnamed_extensions = true.
Proof. split; by vm_compute. Qed.

(** X21: the extensions jpg, mov, avi, 3gp, mkv and mp3 are the ending of no
    listed MIME type, so a file with one of them is detected through its MIME
    type alone: it is unsupported exactly when no listed MIME type begins
    its MIME type. *)
Theorem detectFileType_unnamed_extension (f : File.t) e :
  In e unnamed_extensions ->
  fileExtension f = list_ascii_of_string e ->
  (exists entry, In entry accept /\ In ("." +:+ e) entry.2) /\
  (detectFileType f = None <->
   forall T mimes mime,
     In (T, mimes) allowedTypes -> In mime mimes ->
     startsWith (list_ascii_of_string (File.type f)) (list_ascii_of_string mime)
       = false).
Proof.
  intros He Hext. split.
  { destruct accept_unnamed_extensions as [_ H].
    rewrite forallb_forall in H. specialize (H e He).
    apply existsb_exists in H as (entry & Hentry & (x & Hx & ->%String.eqb_eq)%existsb_exists).
    by exists entry. }
  assert (Hends : forall T mimes mime,
            In (T, mimes) allowedTypes -> In mime mimes ->
            endsWith (list_ascii_of_string mime) (list_ascii_of_string e) = false).
  { intros T mimes mime Hin Hmime.
    pose proof unnamed_extensions_end_nothing as H.
    rewrite forallb_forall in H. specialize (H e He).
    rewrite forallb_forall in H. specialize (H (T, mimes) Hin).
    rewrite forallb_forall in H. specialize (H mime Hmime).
    by apply negb_true_iff in H. }
  split.
  - intros Hnone T mimes mime Hin Hmime. apply not_true_is_false. intros Hstart.
    apply eq_None_not_Some in Hnone. apply Hnone, detect_Some_iff.
    exists T, mimes, mime. split; [done|]. split; [done|].
    unfold mime_matches. by rewrite Hstart.
  - intros Hall. apply eq_None_not_Some.
    intros (T & mimes & mime & Hin & Hmime & Hm)%detect_Some_iff.
    unfold mime_matches in Hm.
    rewrite (Hall T mimes mime Hin Hmime), Hext, (Hends T mimes mime Hin Hmime) in Hm.
    by rewrite andb_false_r in Hm.
Qed.

(** * The greetings form: dropping and removing files *)

Lemma files_onDrop url (fs : list File.t) (st : State) :
  files (onDrop url fs st)
  = (files st ++ List.map (newFile url) (List.filter keeps fs))%list.
Proof.
  unfold onDrop. destruct (List.filter keeps fs) as [|f l]; cbn.
  - by rewrite app_nil_r.
  - done.
Qed.

Lemma keeps_entry_ok url (f : File.t) : keeps f = true -> entry_ok (newFile url f).
Proof.
  unfold keeps, rejection, entry_ok. cbn [file fileType name newFile].
  destruct (Z.ltb_spec MAX_FILE_SIZE (File.size f)); [done|].
  destruct (detectFileType f) as [T|]; [|done]. intros _.
  split; [done|]. split; [done|]. split; [by eexists|done].
Qed.

Lemma filter_index_In {A : Type} (p : nat -> bool) (start : nat) (l : list A) x :
  In x (filter_index p start l) -> In x l.
Proof.
  revert start. induction l as [|y l IH]; intros start; [done|].
  cbn [filter_index]. destruct (p start).
  - intros [->|H]; [by left|right; by apply (IH (S start))].
  - intros H. right. by apply (IH (S start)).
Qed.

Lemma filter_index_all {A : Type} (p : nat -> bool) (start : nat) (l : list A) :
  (forall i, (start <= i)%nat -> p i = true) -> filter_index p start l = l.
Proof.
  revert start. induction l as [|y l IH]; intros start H; [done|].
  cbn [filter_index]. rewrite H by lia. f_equal. apply IH. intros i Hi. apply H. lia.
Qed.

(** Keeping every index but one is deleting the entry at that index. *)
Lemma filter_index_delete {A : Type} (start index : nat) (l : list A) :
  filter_index (fun i => negb (Nat.eqb i (start + index))) start l
  = (take index l ++ drop (S index) l)%list.
Proof.
  revert start index. induction l as [|y l IH]; intros start index.
  - by rewrite take_nil, drop_nil.
  - cbn [filter_index]. destruct index as [|index].
    + rewrite Nat.add_0_r, Nat.eqb_refl. cbn [negb take drop app].
      apply filter_index_all. intros i Hi.
      apply negb_true_iff, Nat.eqb_neq. lia.
    + replace (start =? start + S index)%nat with false
        by (symmetry; apply Nat.eqb_neq; lia).
      cbn [negb take drop app]. f_equal.
      replace (start + S index)%nat with (S start + index)%nat by lia. apply IH.
Qed.

(** X22: [onDrop] appends, after the entries already there, one pending
    entry with progress 0 for each dropped file its filter keeps, in the
    order dropped; and no entry that [onDrop] adds or [removeFile] leaves is
    above the size limit or of an undetected kind. *)
Theorem form_entries_ok url (fs : list File.t) (st : State) :
  Forall entry_ok (files st) ->
  Forall entry_ok (files (onDrop url fs st)) /\
  (forall index st', removeFile index st = Some st' -> Forall entry_ok (files st')) /\
  exists added,
    files (onDrop url fs st) = (files st ++ added)%list /\
    List.map file added = List.filter keeps fs /\
    Forall (fun fi => uploadStatus fi = pending /\ uploadProgress fi = 0%Z) added.
Proof.
  intros Hok. split; [|split].
  - rewrite files_onDrop. apply Forall_app. split; [done|].
    apply Forall_forall. intros fi (f & <- & [_ Hf]%filter_In)%list_elem_of_In%in_map_iff.
    by apply keeps_entry_ok.
  - intros index st'. unfold removeFile.
    destruct (files st !! index); [|done]. intros [= <-]. cbn [files].
    apply Forall_forall. intros fi Hfi%list_elem_of_In%filter_index_In.
    rewrite Forall_forall in Hok. by apply Hok, list_elem_of_In.
  - exists (List.map (newFile url) (List.filter keeps fs)).
    split; [apply files_onDrop|]. split.
    + rewrite map_map. cbn [file newFile]. apply map_id.
    + apply Forall_forall. by intros fi (f & <- & _)%list_elem_of_In%in_map_iff.
Qed.

(** X23: the error of a rejected file survives only a batch in which every
    file is rejected: as soon as the filter keeps one file of the batch the
    error is cleared; when it keeps none, the entries stay as they were and
    the error is the one of the last file of the batch; an empty batch
    changes nothing. *)
Theorem onDrop_error url (st : State) :
  (forall fs f, In f fs -> keeps f = true -> fileError (onDrop url fs st) = "") /\
  (forall fs f, (forall g, In g (fs ++ [f]) -> keeps g = false) ->
     exists m, rejection f = Some m /\
       fileError (onDrop url (fs ++ [f]) st) = m /\
       files (onDrop url (fs ++ [f]) st) = files st) /\
  onDrop url [] st = st.
Proof.
  split; [|split].
  - intros fs f Hin Hkeep. unfold onDrop.
    destruct (List.filter keeps fs) as [|g l] eqn:Hfilter; [|done].
    assert (Hf : In f (List.filter keeps fs)) by (by apply filter_In).
    by rewrite Hfilter in Hf.
  - intros fs f Hnone.
    assert (Hf : keeps f = false) by (apply Hnone, in_or_app; right; by left).
    unfold keeps in Hf. destruct (rejection f) as [m|] eqn:Hm; [|done].
    exists m. split; [done|].
    unfold onDrop. rewrite (filter_none keeps (fs ++ [f])) by done.
    cbn [List.map length Z.of_nat Z.ltb Z.compare fileError files].
    rewrite fold_left_app. cbn [fold_left]. by rewrite Hm.
  - by destruct st.
Qed.

(** X24: [removeFile] throws when there is no entry at the index; otherwise
    it removes exactly that entry, keeping the others in their order, and
    forgets the preview URL recorded under the entry's name; the message and
    the error are not touched. *)
Theorem removeFile_spec (index : nat) (st : State) :
  ((length (files st) <= index)%nat -> removeFile index st = None) /\
  (forall fi, files st !! index = Some fi ->
     exists st',
       removeFile index st = Some st' /\
       files st' = (take index (files st) ++ drop (S index) (files st))%list /\
       S (length (files st')) = length (files st) /\
       previewUrls st' = delete (name fi) (previewUrls st) /\
       fileError st' = fileError st /\ greetings st' = greetings st).
Proof.
  unfold removeFile. split.
  - intros Hge. by rewrite lookup_ge_None_2.
  - intros fi Hfi. rewrite Hfi. eexists. split; [reflexivity|]. cbn.
    rewrite (filter_index_delete 0 index). split; [done|]. split; [|done].
    apply lookup_lt_Some in Hfi.
    rewrite length_app, length_take, length_drop. lia.
Qed.

(** X25: dropping one file the filter keeps and removing it again gives the
    entries back as they were; the preview URLs come back too unless an
    entry of the same name was there before, whose recorded URL is then
    lost. *)
Theorem drop_then_remove url (f : File.t) (st : State) :
  keeps f = true ->
  exists st',
    removeFile (length (files st)) (onDrop url [f] st) = Some st' /\
    files st' = files st /\
    previewUrls st' = delete (File.name f) (previewUrls st) /\
    (previewUrls st !! File.name f = None -> previewUrls st' = previewUrls st).
Proof.
  intros Hkeep. unfold onDrop. cbn [List.filter]. rewrite Hkeep.
  cbn [List.map length fold_left]. change (0 <? Z.of_nat 1)%Z with true. cbv iota.
  unfold removeFile. cbn [files previewUrls].
  rewrite lookup_app_r, Nat.sub_diag by done. cbn [lookup list_lookup].
  eexists. split; [reflexivity|]. cbn [files previewUrls name newFile].
  rewrite (filter_index_delete 0 (length (files st))).
  rewrite take_app_length, drop_app_ge by lia.
  replace (S (length (files st)) - length (files st))%nat with 1%nat by lia.
  cbn [drop]. rewrite app_nil_r, delete_insert_eq.
  split; [done|]. split; [done|]. intros Hnone. by apply delete_id.
Qed.

(** * The greetings form: worked instances *)

Lemma detectFileType_listed_mime_witness :
  is_Some (detectFileType photo) /\
  rejection photo = None /\
  detectFileType photo = Some image.
Proof.
  destruct (detectFileType_listed_mime photo image
              ["image/jpeg"; "image/png"; "image/gif"; "image/webp"; "image/tiff";
               "image/bmp"] "image/png")
    as (Hsome & Hkeep & Himage).
  - by left.
  - right. by left.
  - by vm_compute.
  - split; [exact Hsome|]. split; [apply Hkeep; by vm_compute|by apply Himage].
Defined.

Lemma detectFileType_webm_witness :
  File.type voice = "audio/webm" /\ detectFileType voice <> Some audio.
Proof.
  split; [reflexivity|].
  apply (detectFileType_webm voice). by vm_compute.
Defined.

Lemma clip_mime_unlisted T mimes mime :
  In (T, mimes) allowedTypes -> In mime mimes ->
  startsWith (list_ascii_of_string (File.type clip)) (list_ascii_of_string mime)
    = false.
Proof.
  intros [[= <- <-]|[[= <- <-]|[[= <- <-]|[]]]] Hm; cbn [In] in Hm;
    repeat (destruct Hm as [<-|Hm]; [by vm_compute|]); done.
Qed.

Lemma detectFileType_unnamed_extension_witness :
  detectFileType clip = None.
Proof.
  apply (proj2 (detectFileType_unnamed_extension clip "mkv"
                  ltac:(unfold unnamed_extensions; cbn [In]; tauto)
                  ltac:(by vm_compute))).
  apply clip_mime_unlisted.
Defined.


Lemma form_entries_ok_witness :
  Forall entry_ok (files (onDrop blob_url [photo; clip; huge] empty_form)).
Proof.
  apply (proj1 (form_entries_ok blob_url [photo; clip; huge] empty_form
                  (Forall_nil_2 entry_ok))).
Defined.

Lemma onDrop_error_witness :
  fileError (onDrop blob_url [clip; photo] empty_form) = "".
Proof.
  apply (proj1 (onDrop_error blob_url empty_form) [clip; photo] photo).
  - right. by left.
  - by vm_compute.
Defined.

Lemma removeFile_spec_witness : removeFile 0 empty_form = None.
Proof. apply (proj1 (removeFile_spec 0 empty_form)). reflexivity. Defined.

Lemma drop_then_remove_witness :
  exists st',
    removeFile (length (files empty_form)) (onDrop blob_url [photo] empty_form)
      = Some st' /\
    files st' = files empty_form /\
    previewUrls st' = previewUrls empty_form.
Proof.
  destruct (drop_then_remove blob_url photo empty_form) as (st' & Hrun & Hfiles & _ & Hurls).
  - by vm_compute.
  - exists st'. split; [exact Hrun|]. split; [exact Hfiles|]. by apply Hurls.
Defined.

End FormFacts.

(** ** The number of users *)

(** X26: [getUserCount] after an operation: a registration the data store
    accepts adds exactly one user, whether or not the code could be sent;
    [updateUserOTP], [verifyEmailOTP], [updateUser] and [revokeRefreshToken]
    never add or remove a user, whatever they return; [deleteUser] lowers
    the count by the number it returns. *)
Theorem getUserCount_after send required (t : Table) :
  (forall createdAt now userData,
     accepted required userData t ->
     (getUserCount (createUser send required createdAt now userData t).2).1
       = Ok (S (length t))) /\
  (forall now userId,
     (getUserCount (updateUserOTP send now userId t).2).1 = Ok (length t)) /\
  (forall now userId otp,
     (getUserCount (verifyEmailOTP now userId otp t).2).1 = Ok (length t)) /\
  (forall id userData,
     (getUserCount (updateUser id userData t).2).1 = Ok (length t)) /\
  (forall userId,
     (getUserCount (revokeRefreshToken userId t).2).1 = Ok (length t)) /\
  (forall id n t',
     deleteUser id t = (Ok n, t') ->
     (getUserCount t').1 = Ok (length t - n)%nat).
Proof.
  unfold getUserCount, UserModel.count, read. cbn [fst]. repeat split.
  - intros createdAt now userData [Hreq Hmail]. rewrite createUser_unfold.
    rewrite (proj2 (find_required_None _ _) Hreq), Hmail. cbv zeta.
    destruct (send _ _); cbn [snd]; rewrite length_app; cbn [length];
      by rewrite Nat.add_1_r.
  - intros now userId. rewrite updateUserOTP_unfold.
    destruct (List.find _ t); [|done]. destruct (send _ _); [|done]. cbn [snd].
    by rewrite length_map.
  - intros now userId otp. rewrite verifyEmailOTP_unfold.
    destruct (List.find _ t); [|done]. cbn [snd]. by rewrite length_map.
  - intros id userData. rewrite updateUser_table.
    destruct (update_table_cases userData [CEq "id" (VInt id)] t) as [->| ->];
      [done|by rewrite length_map].
  - intros id n t'. unfold deleteUser, UserModel.destroy.
    intros [Hn <-]%pair_equal_spec.
    assert (n = length (List.filter (matches [CEq "id" (VInt id)]) t)) as ->
      by congruence.
    f_equal. rewrite <- (filter_length (matches [CEq "id" (VInt id)]) t) at 1.
    by rewrite Nat.add_comm, Nat.add_sub.
Qed.

Lemma getUserCount_after_witness :
  (getUserCount (createUser send_failing ["email"] 7 8 dave_data sample_table).2).1
    = Ok 4%nat /\
  (getUserCount (deleteUser 2 sample_table).2).1 = Ok 2%nat.
Proof.
  destruct (getUserCount_after send_failing ["email"] sample_table)
    as (Hcreate & _ & _ & _ & _ & Hdelete).
  split; [apply (Hcreate 7 8 dave_data sample_accepts_dave)|].
  assert (Hrun : deleteUser 2 sample_table = (Ok 1%nat, (deleteUser 2 sample_table).2)).
  { unfold deleteUser, UserModel.destroy. cbn [snd].
    by replace (length (List.filter _ sample_table)) with 1%nat by (by vm_compute). }
  exact (Hdelete 2 1%nat _ Hrun).
Defined.
